(** * slack-standup-bot: the conversation orchestrator

    A shallow embedding of [initStandup], [notWorkingClickHandler] and
    [startStandupClickHandler] (the bot's init-standup method) and of
    [fetchStandups] / [StandupList] (apps/web/src/app/standups/page.tsx),
    followed by the properties the specification states about them.

    The bot is a mutable JavaScript object.  Its conversation state lives in
    a store of objects addressed by location, so that two variables holding
    the same object really are aliases.  Every call that leaves the module
    (Slack client helpers, the state machine, [ack]) is recorded in a
    chronological trace together with what it answered; the answers come
    from an oracle that sees the whole history, so nothing is assumed about
    the outside world. *)

From stdpp Require Import gmap strings list fin_maps.

Local Open Scope string_scope.
Local Open Scope list_scope.

(** ** Data model *)

(** One posted bot message: [{ ts: string }]. *)
Record BotMessage := { ts : string }.

(** [botMessages]: the per-phase message logs; only [INIT] is used here. *)
Record BotMessages := { INIT : list BotMessage }.

(** One entry of [conversationState.users].  [answers] is [null] once the
    member opted out. *)
Record ConversationStateMember := {
  botMessages : BotMessages;
  answers : option (list (string * string));
  meta : option string
}.

Record ConversationState := { users : gmap string ConversationStateMember }.

(** Slack block kit, as far as the prompts use it: a [section] block with a
    [mrkdwn] text and an optional [button] accessory with a [plain_text]
    label. *)
Record Button := { button_text : string; action_id : string }.
Record Block := { section_text : string; accessory : option Button }.

(** What [postMessage] resolves to when it resolves to an object. *)
Record PostedMessage := { posted_ts : option string }.

(** The interaction payload handed to a click handler ([body: any]). *)
Record ChannelRef := { channel_id : option string }.
Record MessageRef := { message_ts : option string }.
Record UserRef := { user_id : option string }.
Record Body := {
  body_channel : option ChannelRef;
  body_message : option MessageRef;
  body_user : option UserRef
}.

(** ** Outcomes of asynchronous calls *)

Inductive Error :=
| TypeError
| Rejected (reason : string).

Inductive Outcome (A : Type) :=
| Return (a : A)
| Throw (e : Error).
Arguments Return {A} a.
Arguments Throw {A} e.

(** ** The trace of calls leaving the module *)

Inductive Event :=
| EvSend (event : string)
| EvConnect (r : Outcome unit)
| EvAddUserMeta (member : string) (r : Outcome (option string))
| EvOpenConversation (token member : string) (r : Outcome (option string))
| EvUpdateMessage (token channel ts text : string) (blocks : list Block)
    (r : Outcome unit)
| EvPostMessage (token channel text : string) (blocks : list Block)
    (r : Outcome (option PostedMessage))
| EvAck (r : Outcome unit)
| EvNotWorking (token channel ts : string) (r : Outcome unit)
| EvStartStandup (channel ts : string) (member : option string)
    (r : Outcome unit).

(** The outside world: for each helper, what it answers given the history
    so far and its arguments.  [gw_startStandup] receives the bot itself in
    the source, so it may also rewrite the conversation state. *)
Record Gateway := {
  gw_connect : list Event -> Outcome unit;
  gw_userMeta : list Event -> string -> Outcome (option string);
  gw_openConversation : list Event -> string -> string -> Outcome (option string);
  gw_updateMessage :
    list Event -> string -> string -> string -> string -> list Block -> Outcome unit;
  gw_postMessage :
    list Event -> string -> string -> string -> list Block ->
    Outcome (option PostedMessage);
  gw_ack : list Event -> Outcome unit;
  gw_notWorking : list Event -> string -> string -> string -> Outcome unit;
  gw_startStandup :
    list Event -> string -> string -> option string -> ConversationState ->
    Outcome ConversationState
}.

(** ** The bot and its store *)

Definition loc := nat.

(** [StandupBot], as far as these methods read it.  [conversationState]
    holds a reference to the state object, not the object. *)
Record StandupBot := {
  conversationState : loc;
  members : list string;
  token : string;
  notButtonId : string;
  startButtonId : string
}.

Record World := {
  heap : loc -> ConversationState;
  trace : list Event
}.

Definition store (l : loc) (cs : ConversationState) (h : loc -> ConversationState)
  : loc -> ConversationState :=
  fun l' => if Nat.eqb l' l then cs else h l'.

(** ** A state-and-exception monad over the world *)

Definition M (A : Type) : Type := World -> Outcome A * World.

Definition ret {A} (a : A) : M A := fun w => (Return a, w).

Definition throw {A} (e : Error) : M A := fun w => (Throw e, w).

Definition bind {A B} (c : M A) (k : A -> M B) : M B :=
  fun w =>
    match c w with
    | (Return a, w') => k a w'
    | (Throw e, w') => (Throw e, w')
    end.

Notation "x <- c ;; k" := (bind c (fun x => k))
  (at level 100, c at next level, right associativity).
Notation "c ;; k" := (bind c (fun _ => k))
  (at level 100, right associativity).

(** Settle an already computed outcome. *)
Definition lift {A} (o : Outcome A) : M A := fun w => (o, w).

(** Record an event. *)
Definition emit (e : Event) : M unit :=
  fun w => (Return tt, {| heap := heap w; trace := trace w ++ [e] |}).

(** Await an outside call: ask the oracle, record call and answer. *)
Definition await {A} (answer : list Event -> Outcome A) (ev : Outcome A -> Event)
  : M A :=
  fun w =>
    let r := answer (trace w) in
    (r, {| heap := heap w; trace := trace w ++ [ev r] |}).

(** Read the object a reference points to. *)
Definition deref (l : loc) : M ConversationState :=
  fun w => (Return (heap w l), w).

(** Mutate in place the object a reference points to. *)
Definition mutate (l : loc) (f : ConversationState -> ConversationState) : M unit :=
  fun w => (Return tt, {| heap := store l (f (heap w l)) (heap w); trace := trace w |}).

(** [for (const x of xs) body]; [continue] is the body returning early. *)
Fixpoint forOf {A} (xs : list A) (body : A -> M unit) : M unit :=
  match xs with
  | [] => ret tt
  | x :: rest => body x ;; forOf rest body
  end.

(** ** JavaScript truthiness and property access *)

(** A string-or-undefined value is truthy when it is a non-empty string. *)
Definition truthy (v : option string) : option string :=
  match v with
  | Some s => if String.eqb s "" then None else Some s
  | None => None
  end.

(** [users[k]] with [k] possibly [undefined]: the key is stringified. *)
Definition propertyKey (k : option string) : string :=
  match k with
  | Some s => s
  | None => "undefined"
  end.

(** [body?.channel?.id] *)
Definition body_channel_id (body : option Body) : option string :=
  b ← body; c ← body_channel b; channel_id c.

(** [(body as any).message.ts]: reading through [undefined] throws. *)
Definition body_message_ts (body : option Body) : Outcome (option string) :=
  match body with
  | None => Throw TypeError
  | Some b =>
      match body_message b with
      | None => Throw TypeError
      | Some m => Return (message_ts m)
      end
  end.

(** [body.user.id] *)
Definition body_user_id (body : option Body) : Outcome (option string) :=
  match body with
  | None => Throw TypeError
  | Some b =>
      match body_user b with
      | None => Throw TypeError
      | Some u => Return (user_id u)
      end
  end.

(** ** Helpers imported by the module *)

(** Modelled from the spec: [createConversationStateMember]
    (./conversationState is not among the sources).  A conversation is
    created with empty per-phase message logs and no answer collected yet;
    the opted-out sentinel [null] is only set by the not-working handler. *)
Definition createConversationStateMember : ConversationStateMember :=
  {| botMessages := {| INIT := [] |}; answers := Some []; meta := None |}.

Definition setMeta (v : option string) (e : ConversationStateMember)
  : ConversationStateMember :=
  {| botMessages := botMessages e; answers := answers e; meta := v |}.

Definition pushInit (m : BotMessage) (e : ConversationStateMember)
  : ConversationStateMember :=
  {| botMessages := {| INIT := INIT (botMessages e) ++ [m] |};
     answers := answers e; meta := meta e |}.

Definition setAnswersNull (e : ConversationStateMember) : ConversationStateMember :=
  {| botMessages := botMessages e; answers := None; meta := meta e |}.

Definition setUser (k : string) (e : ConversationStateMember) (cs : ConversationState)
  : ConversationState :=
  {| users := <[k := e]> (users cs) |}.

Definition alterUser (f : ConversationStateMember -> ConversationStateMember)
  (k : string) (cs : ConversationState) : ConversationState :=
  {| users := alter f k (users cs) |}.

(** [addUserMeta(BOT, member)] (./addUserMeta is not among the sources):
    taken to fetch the member's profile and to write it to the [meta] field
    of the member's own entry, touching nothing else of the state. *)
Definition addUserMeta (gw : Gateway) (BOT : StandupBot) (member : string) : M unit :=
  v <- await (fun h => gw_userMeta gw h member) (EvAddUserMeta member) ;;
  mutate (conversationState BOT) (alterUser (setMeta v) member).

Definition connect (gw : Gateway) : M unit :=
  await (gw_connect gw) EvConnect.

Definition openConversation (gw : Gateway) (tok member : string)
  : M (option string) :=
  await (fun h => gw_openConversation gw h tok member) (EvOpenConversation tok member).

Definition updateMessage (gw : Gateway) (tok channel t text : string)
  (blocks : list Block) : M unit :=
  await (fun h => gw_updateMessage gw h tok channel t text blocks)
        (EvUpdateMessage tok channel t text blocks).

Definition postMessage (gw : Gateway) (tok channel text : string)
  (blocks : list Block) : M (option PostedMessage) :=
  await (fun h => gw_postMessage gw h tok channel text blocks)
        (EvPostMessage tok channel text blocks).

Definition ack (gw : Gateway) : M unit :=
  await (gw_ack gw) EvAck.

Definition notWorking (gw : Gateway) (tok channel t : string) : M unit :=
  await (fun h => gw_notWorking gw h tok channel t) (EvNotWorking tok channel t).

Definition startStandup (gw : Gateway) (BOT : StandupBot) (channel t : string)
  (member : option string) : M unit :=
  fun w =>
    let l := conversationState BOT in
    match gw_startStandup gw (trace w) channel t member (heap w l) with
    | Return cs =>
        (Return tt,
         {| heap := store l cs (heap w);
            trace := trace w ++ [EvStartStandup channel t member (Return tt)] |})
    | Throw e =>
        (Throw e,
         {| heap := heap w;
            trace := trace w ++ [EvStartStandup channel t member (Throw e)] |})
    end.

(** [BOT.botStateMachine.send(event)] *)
Definition send (event : string) : M unit := emit (EvSend event).

(** ** initStandup *)

(** The placeholder a previously posted prompt is edited to. *)
Definition supersededBlocks : list Block :=
  [ {| section_text := "---"; accessory := None |} ].

Definition initText : string := "Hello mate :wave:, it’s standup time!".

(** The initial prompt. *)
Definition initBlocks (BOT : StandupBot) : list Block :=
  [ {| section_text := "Hello mate :wave:, it’s standup time!";
       accessory := Some {| button_text := "Not Working Today";
                            action_id := notButtonId BOT |} |};
    {| section_text := "Shall we? :point_right:";
       accessory := Some {| button_text := "Start Standup!";
                            action_id := startButtonId BOT |} |} ].

(** [cs.users[member]?.botMessages.INIT?.[0]?.ts] *)
Definition firstInitTs (cs : ConversationState) (member : string) : option string :=
  e ← users cs !! member; m ← head (INIT (botMessages e)); Some (ts m).

(** [initMessage?.ts] *)
Definition initMessageTs (initMessage : option PostedMessage) : option string :=
  p ← initMessage; posted_ts p.

(** The body of the loop over [BOT.members]. [prevConversationState] is the
    reference taken before the loop. *)
Definition initMember (gw : Gateway) (BOT : StandupBot) (prevConversationState : loc)
  (member : string) : M unit :=
  mutate (conversationState BOT) (setUser member createConversationStateMember) ;;
  addUserMeta gw BOT member ;;
  channel <- openConversation gw (token BOT) member ;;
  match truthy channel with
  | None => ret tt
  | Some channel =>
      (* check previously posted message (if interrupted abruptly) *)
      prev <- deref prevConversationState ;;
      match truthy (firstInitTs prev member) with
      | Some t => updateMessage gw (token BOT) channel t "---" supersededBlocks
      | None => ret tt
      end ;;
      (* post question *)
      initMessage <- postMessage gw (token BOT) channel initText (initBlocks BOT) ;;
      match truthy (initMessageTs initMessage) with
      | None => ret tt
      | Some t =>
          mutate (conversationState BOT) (alterUser (pushInit {| ts := t |}) member)
      end
  end.

Definition initStandup (gw : Gateway) (BOT : StandupBot) : M unit :=
  send "INIT" ;;
  connect gw ;;
  let prevConversationState := conversationState BOT in
  forOf (members BOT) (initMember gw BOT prevConversationState) ;;
  send "INIT_DONE".

(** ** Click handlers *)

(** The users map is a plain object: reading [users[k]] for a key that has
    no entry still finds what [Object.prototype] provides under that
    name. *)
Definition objectPrototypeKeys : list string :=
  [ "constructor"; "__defineGetter__"; "__defineSetter__"; "hasOwnProperty";
    "__lookupGetter__"; "__lookupSetter__"; "isPrototypeOf";
    "propertyIsEnumerable"; "toString"; "valueOf"; "__proto__";
    "toLocaleString" ].

Definition inheritedProperty (k : string) : bool :=
  existsb (String.eqb k) objectPrototypeKeys.
Arguments inheritedProperty : simpl never.

(** [users[k]!.answers = null]: with an entry under [k], its answers are
    nulled; with none, the assignment goes through what [users[k]] reads.
    For an inherited name that is a built-in object or function: the write
    lands there, outside the conversation state, and nothing is thrown.
    Otherwise [users[k]] is [undefined] and the assignment throws. *)
Definition assignAnswersNull (l : loc) (k : string) : M unit :=
  cs <- deref l ;;
  match users cs !! k with
  | Some _ => mutate l (alterUser setAnswersNull k)
  | None => if inheritedProperty k then ret tt else throw TypeError
  end.

Definition notWorkingClickHandler (gw : Gateway) (BOT : StandupBot)
  (body : option Body) : M unit :=
  ack gw ;;
  let channel := body_channel_id body in
  t <- lift (body_message_ts body) ;;
  match truthy channel, truthy t with
  | Some channel, Some t =>
      notWorking gw (token BOT) channel t ;;
      uid <- lift (body_user_id body) ;;
      assignAnswersNull (conversationState BOT) (propertyKey uid) ;;
      send "NOT_WORKING"
  | _, _ => ret tt
  end.

Definition startStandupClickHandler (gw : Gateway) (BOT : StandupBot)
  (body : option Body) : M unit :=
  ack gw ;;
  let channel := body_channel_id body in
  t <- lift (body_message_ts body) ;;
  match truthy channel, truthy t with
  | Some channel, Some t =>
      uid <- lift (body_user_id body) ;;
      startStandup gw BOT channel t uid
  | _, _ => ret tt
  end.

(** ** The standup list page *)

Record Standup := { name : string }.

Inductive Log := ConsoleError (e : Error).

(** [try { return await db.select().from(Standups) } catch (e) { ... }];
    the query's outcome is the argument. *)
Definition fetchStandups (query : Outcome (list Standup))
  : Outcome (list Standup) * list Log :=
  match query with
  | Return rows => (Return rows, [])
  | Throw e => (Return [], [ConsoleError e])
  end.

(** What the page renders: the create link and one child per standup. *)
Record Page := { createLink : string; entries : list string }.

Definition StandupList (query : Outcome (list Standup)) : Outcome Page * list Log :=
  match fetchStandups query with
  | (Return standups, log) =>
      (Return {| createLink := "/standups/create"; entries := map name standups |},
       log)
  | (Throw e, log) => (Throw e, log)
  end.

(** ** Observations on traces and states *)

Definition isUpdateMessage (e : Event) : bool :=
  match e with
  | EvUpdateMessage _ _ _ _ _ _ => true
  | _ => false
  end.

Definition isPostMessage (e : Event) : bool :=
  match e with
  | EvPostMessage _ _ _ _ _ => true
  | _ => false
  end.

Definition isSend (e : Event) : bool :=
  match e with
  | EvSend _ => true
  | _ => false
  end.

(** The buttons a prompt offers. *)
Definition choices (blocks : list Block) : list Button := omap accessory blocks.

(** What the loop records for a post that answered [r]. *)
Definition recorded (r : Outcome (option PostedMessage)) : list BotMessage :=
  match r with
  | Return p =>
      match truthy (initMessageTs p) with
      | Some t => [ {| ts := t |} ]
      | None => []
      end
  | Throw _ => []
  end.

(** The member opted out: the sentinel [null] stands for its answers. *)
Definition optedOut (cs : ConversationState) (member : string) : Prop :=
  exists e, users cs !! member = Some e /\ answers e = None.

(** The member waits for a click on its one live prompt [R]. *)
Definition awaitingChoice (cs : ConversationState) (member : string) (R : BotMessage)
  : Prop :=
  exists e, users cs !! member = Some e /\ INIT (botMessages e) = [R] /\
            answers e <> None.

(** None of the calls [initStandup] makes is rejected. *)
Definition gatewayReturns (gw : Gateway) : Prop :=
  (forall h, exists a, gw_connect gw h = Return a) /\
  (forall h m, exists a, gw_userMeta gw h m = Return a) /\
  (forall h tok m, exists a, gw_openConversation gw h tok m = Return a) /\
  (forall h tok ch text bl, exists a, gw_postMessage gw h tok ch text bl = Return a).

(** *** One member's initiation, relationally

    [initiated BOT member seg e o]: the calls [seg] were made for [member],
    its entry was left as [e], and the iteration ended with [o]. *)
Inductive initiated (BOT : StandupBot) (member : string)
  : list Event -> ConversationStateMember -> Outcome unit -> Prop :=
| init_meta_throws err :
    initiated BOT member
      [EvAddUserMeta member (Throw err)]
      createConversationStateMember (Throw err)
| init_open_throws v err :
    initiated BOT member
      [EvAddUserMeta member (Return v);
       EvOpenConversation (token BOT) member (Throw err)]
      (setMeta v createConversationStateMember) (Throw err)
| init_no_channel v c :
    truthy c = None ->
    initiated BOT member
      [EvAddUserMeta member (Return v);
       EvOpenConversation (token BOT) member (Return c)]
      (setMeta v createConversationStateMember) (Return tt)
| init_post_throws v c channel err :
    truthy c = Some channel ->
    initiated BOT member
      [EvAddUserMeta member (Return v);
       EvOpenConversation (token BOT) member (Return c);
       EvPostMessage (token BOT) channel initText (initBlocks BOT) (Throw err)]
      (setMeta v createConversationStateMember) (Throw err)
| init_not_posted v c channel p :
    truthy c = Some channel ->
    truthy (initMessageTs p) = None ->
    initiated BOT member
      [EvAddUserMeta member (Return v);
       EvOpenConversation (token BOT) member (Return c);
       EvPostMessage (token BOT) channel initText (initBlocks BOT) (Return p)]
      (setMeta v createConversationStateMember) (Return tt)
| init_posted v c channel p t :
    truthy c = Some channel ->
    truthy (initMessageTs p) = Some t ->
    initiated BOT member
      [EvAddUserMeta member (Return v);
       EvOpenConversation (token BOT) member (Return c);
       EvPostMessage (token BOT) channel initText (initBlocks BOT) (Return p)]
      (pushInit {| ts := t |} (setMeta v createConversationStateMember))
      (Return tt).

(** The loop over the members: the members reached with their calls, the
    users map before and after, and how the loop ended. *)
Inductive initiatedAll (BOT : StandupBot)
  : list string -> gmap string ConversationStateMember ->
    list (string * list Event) -> gmap string ConversationStateMember ->
    Outcome unit -> Prop :=
| all_done u :
    initiatedAll BOT [] u [] u (Return tt)
| all_throw member rest u seg e err :
    initiated BOT member seg e (Throw err) ->
    initiatedAll BOT (member :: rest) u [(member, seg)] (<[member := e]> u)
      (Throw err)
| all_next member rest u seg e runs u' o :
    initiated BOT member seg e (Return tt) ->
    initiatedAll BOT rest (<[member := e]> u) runs u' o ->
    initiatedAll BOT (member :: rest) u ((member, seg) :: runs) u' o.

(** The calls of a whole run of [initStandup]: [c] is what [connect]
    answered, [runs] the members reached, [o] the outcome. *)
Definition runTrace (c : Outcome unit) (runs : list (string * list Event))
  (o : Outcome unit) : list Event :=
  EvSend "INIT" :: EvConnect c :: concat (map snd runs) ++
  match o with
  | Return _ => [EvSend "INIT_DONE"]
  | Throw _ => []
  end.

(** The references the loop records for the posts of a segment. *)
Definition recordedBy (seg : list Event) : list BotMessage :=
  flat_map (fun ev =>
              match ev with
              | EvPostMessage _ _ _ _ r => recorded r
              | _ => []
              end) seg.

Definition posts (seg : list Event) : list Event := List.filter isPostMessage seg.

(** A call made on behalf of [member], whose conversation is [channel]. *)
Definition callFor (member : string) (channel : option string) (e : Event) : bool :=
  match e with
  | EvAddUserMeta m _ => String.eqb m member
  | EvOpenConversation _ m _ => String.eqb m member
  | EvUpdateMessage _ ch _ _ _ _ => bool_decide (channel = Some ch)
  | EvPostMessage _ ch _ _ _ => bool_decide (channel = Some ch)
  | _ => false
  end.

(** Every call of [b] comes after every call of [a]. *)
Fixpoint serializedBehind (isA isB : Event -> bool) (tr : list Event) : bool :=
  match tr with
  | [] => true
  | e :: rest =>
      (if isB e then forallb (fun e' => negb (isA e')) rest else true)
      && serializedBehind isA isB rest
  end.

(** The calls for [b] (conversation [chb]) are not held back until those for
    [a] (conversation [cha]) are over. *)
Definition notBlockedBy (gw : Gateway) (BOT : StandupBot) (w : World)
  (a cha b chb : string) : Prop :=
  serializedBehind (callFor a (Some cha)) (callFor b (Some chb))
    (trace (initStandup gw BOT w).2) = false.

(** The event misses the channel id or the message timestamp. *)
Definition malformed (body : option Body) : Prop :=
  truthy (body_channel_id body) = None \/
  match body_message_ts body with
  | Return t => truthy t = None
  | Throw _ => True
  end.

(** The click is on a message other than the acting member's live prompt. *)
Definition staleClick (cs : ConversationState) (body : option Body) : Prop :=
  exists uid t,
    body_user_id body = Return (Some uid) /\
    body_message_ts body = Return (Some t) /\
    is_Some (users cs !! uid) /\
    firstInitTs cs uid <> Some t.

(** The handler acknowledged the event, changed nothing and did not fail. *)
Definition acknowledgedNoOp (gw : Gateway) (BOT : StandupBot) (body : option Body)
  (w : World) : Prop :=
  let r := notWorkingClickHandler gw BOT body w in
  (exists a rest, trace r.2 = trace w ++ EvAck a :: rest) /\
  heap r.2 (conversationState BOT) = heap w (conversationState BOT) /\
  r.1 = Return tt.

(** The post to [channel] was attempted more than once and [member] ended
    opted out. *)
Definition optedOutAfterRetries (gw : Gateway) (BOT : StandupBot) (w : World)
  (member channel : string) : Prop :=
  let r := initStandup gw BOT w in
  1 < length (posts (List.filter (callFor member (Some channel)) (trace r.2))) /\
  optedOut (heap r.2 (conversationState BOT)) member.

(** The payload is a click by [member] on the message [t] of [channel]. *)
Definition clickOn (body : option Body) (channel t : string) (member : option string)
  : Prop :=
  truthy (body_channel_id body) = Some channel /\
  (exists v, body_message_ts body = Return v /\ truthy v = Some t) /\
  body_user_id body = Return member.

(** ** A concrete round *)

(** A workspace in which every helper answers; the prompt cannot be
    delivered to [U2]. *)
Definition slack : Gateway := {|
  gw_connect := fun _ => Return tt;
  gw_userMeta := fun _ m => Return (Some m);
  gw_openConversation := fun _ _ m => Return (Some ("D-" +:+ m));
  gw_updateMessage := fun _ _ _ _ _ _ => Return tt;
  gw_postMessage := fun _ _ ch _ _ =>
    Return (if String.eqb ch "D-U2" then None
            else Some {| posted_ts := Some "200" |});
  gw_ack := fun _ => Return tt;
  gw_notWorking := fun _ _ _ _ => Return tt;
  gw_startStandup := fun _ _ _ _ cs => Return cs
|}.

Definition standupBot : StandupBot := {|
  conversationState := 0;
  members := ["U1"; "U2"];
  token := "xoxb";
  notButtonId := "not-working";
  startButtonId := "start-standup"
|}.

(** The state recovered from an interrupted round: [U1] still holds the
    prompt posted at [100]. *)
Definition recoveredState : ConversationState :=
  {| users :=
       {[ "U1" := {| botMessages := {| INIT := [ {| ts := "100" |} ] |};
                     answers := Some []; meta := Some "U1" |} ]} |}.

Definition recovered : World := {| heap := fun _ => recoveredState; trace := [] |}.

Definition click (channel t user : option string) : option Body :=
  Some {| body_channel := Some {| channel_id := channel |};
          body_message := Some {| message_ts := t |};
          body_user := Some {| user_id := user |} |}.

(** [U1] clicks its live prompt, an older message, and sends a payload
    without channel. *)
Definition liveClick : option Body := click (Some "D-U1") (Some "100") (Some "U1").
Definition olderClick : option Body := click (Some "D-U1") (Some "099") (Some "U1").
Definition noChannelClick : option Body := click None (Some "100") (Some "U1").

(** ** Which members are prompted *)

(** The members whose conversation request is followed at once by a post,
    in call order. *)
Fixpoint promptedMembers (tr : list Event) : list string :=
  match tr with
  | [] => []
  | ev :: rest =>
      match ev, rest with
      | EvOpenConversation _ m _, EvPostMessage _ _ _ _ _ :: _ =>
          m :: promptedMembers rest
      | _, _ => promptedMembers rest
      end
  end.

(** Every member of the run was posted a prompt. *)
Definition everyMemberPrompted (gw : Gateway) (BOT : StandupBot) (w : World) : Prop :=
  forall member, In member (members BOT) ->
    In member (promptedMembers (trace (initStandup gw BOT w).2)).

(** The calls made for one member, all of them: the profile is requested;
    unless that is rejected, the conversation is requested; and exactly
    when the conversation opens, on [channel], the initial prompt is posted
    there, once. *)
Definition promptCalls (BOT : StandupBot) (member : string) (seg : list Event) : Prop :=
  (exists err, seg = [EvAddUserMeta member (Throw err)]) \/
  (exists v r,
     seg = [EvAddUserMeta member (Return v);
            EvOpenConversation (token BOT) member r] /\
     match r with
     | Return c => truthy c = None
     | Throw _ => True
     end) \/
  (exists v c channel p,
     truthy c = Some channel /\
     seg = [EvAddUserMeta member (Return v);
            EvOpenConversation (token BOT) member (Return c);
            EvPostMessage (token BOT) channel initText (initBlocks BOT) p]).

(** A workspace in which no conversation with [U2] can be opened:
    [openConversation] resolves to [undefined] for it. *)
Definition slackClosedU2 : Gateway := {|
  gw_connect := gw_connect slack;
  gw_userMeta := gw_userMeta slack;
  gw_openConversation := fun h tok m =>
    if String.eqb m "U2" then Return None else gw_openConversation slack h tok m;
  gw_updateMessage := gw_updateMessage slack;
  gw_postMessage := gw_postMessage slack;
  gw_ack := gw_ack slack;
  gw_notWorking := gw_notWorking slack;
  gw_startStandup := gw_startStandup slack
|}.

(** A click whose user id is the name of an inherited property. *)
Definition constructorClick : option Body :=
  click (Some "D-U9") (Some "300") (Some "constructor").

(** ** Further observations on runs *)

(** The error a recorded call was rejected with, if it was. *)
Definition outcomeError {A} (r : Outcome A) : option Error :=
  match r with
  | Return _ => None
  | Throw e => Some e
  end.

Definition rejection (ev : Event) : option Error :=
  match ev with
  | EvSend _ => None
  | EvConnect r => outcomeError r
  | EvAddUserMeta _ r => outcomeError r
  | EvOpenConversation _ _ r => outcomeError r
  | EvUpdateMessage _ _ _ _ _ r => outcomeError r
  | EvPostMessage _ _ _ _ r => outcomeError r
  | EvAck r => outcomeError r
  | EvNotWorking _ _ _ r => outcomeError r
  | EvStartStandup _ _ _ r => outcomeError r
  end.

(** The members a conversation was requested for, in call order. *)
Definition openedMembers (tr : list Event) : list string :=
  omap (fun ev =>
          match ev with
          | EvOpenConversation _ m _ => Some m
          | _ => None
          end) tr.

(** The members whose profile was requested, in call order. *)
Definition profiledMembers (tr : list Event) : list string :=
  omap (fun ev =>
          match ev with
          | EvAddUserMeta m _ => Some m
          | _ => None
          end) tr.

(** A first round: nothing is known about anybody. *)
Definition firstRound : World :=
  {| heap := fun _ => {| users := ∅ |}; trace := [] |}.

(** The same bot, run for [U2] alone. *)
Definition secondOnly : StandupBot := {|
  conversationState := 0;
  members := ["U2"];
  token := "xoxb";
  notButtonId := "not-working";
  startButtonId := "start-standup"
|}.

(** A payload with neither message nor user. *)
Definition bareClick : option Body :=
  Some {| body_channel := Some {| channel_id := Some "D-U1" |};
          body_message := None;
          body_user := None |}.

(** A click whose payload names no user. *)
Definition anonymousClick : option Body :=
  Some {| body_channel := Some {| channel_id := Some "D-U1" |};
          body_message := Some {| message_ts := Some "100" |};
          body_user := None |}.

(** A workspace in which the acknowledgment comes too late. *)
Definition slackLateAck : Gateway := {|
  gw_connect := gw_connect slack;
  gw_userMeta := gw_userMeta slack;
  gw_openConversation := gw_openConversation slack;
  gw_updateMessage := gw_updateMessage slack;
  gw_postMessage := gw_postMessage slack;
  gw_ack := fun _ => Throw (Rejected "expired_trigger_id");
  gw_notWorking := gw_notWorking slack;
  gw_startStandup := gw_startStandup slack
|}.

(** A click by somebody who is not in the users map. *)
Definition strangerClick : option Body :=
  click (Some "D-U9") (Some "300") (Some "U9").

(** A workspace that refuses to open a conversation with [U2]. *)
Definition slackWithoutU2 : Gateway := {|
  gw_connect := gw_connect slack;
  gw_userMeta := gw_userMeta slack;
  gw_openConversation := fun h tok m =>
    if String.eqb m "U2" then Throw (Rejected "user_not_found")
    else gw_openConversation slack h tok m;
  gw_updateMessage := gw_updateMessage slack;
  gw_postMessage := gw_postMessage slack;
  gw_ack := gw_ack slack;
  gw_notWorking := fun _ _ _ _ => Throw (Rejected "message_not_found");
  gw_startStandup := gw_startStandup slack
|}.

(** ** The create-standup form *)

Module CreateForm.

(** Values of untyped form data, as far as the form distinguishes them. *)
#[warnings="-register-all"] Inductive JsValue :=
| JsNull
| JsNumber (n : Z)
| JsString (s : string)
| JsArray (items : list JsValue).

(** [type Data = { slackId: string; name: string }] *)
Record Data := { slackId : string; name : string }.

(** The parsed body of a response, read as [data.channels] / [data.users]. *)
Record Payload := {
  channels : option (list Data);
  users : option (list Data)
}.

(** What [fetch] resolves to: [res.ok] and what [res.json()] settles to
    ([null] is [Return None]). *)
Record Response := { ok : bool; json : Outcome (option Payload) }.

(** The requests the form makes; headers and credentials are constant.  The
    body of a POST is the serialized object: a property whose value is
    [undefined] is left out by [JSON.stringify]. *)
Inductive Request :=
| Get (url : string)
| Post (url : string) (body : gmap string JsValue).

Definition Network := Request -> Outcome Response.

(** Clerk's user, as far as the form reads it. *)
Record ExternalAccount := { providerUserId : string }.
Record User := { externalAccounts : list ExternalAccount }.

Inductive Console :=
| LogData (data : gmap string JsValue)
| LogError (e : Error).

(** A template literal stringifies [undefined]. *)
Definition interpolate (v : option string) : string :=
  match v with
  | Some s => s
  | None => "undefined"
  end.

Definition getChannels (net : Network) (id : option string)
  : Outcome (option (list Data)) * list Request :=
  let request := Get ("/api/p/slack/channels?slackId=" +:+ interpolate id) in
  match net request with
  | Throw e => (Throw e, [request])
  | Return res =>
      if ok res then
        match json res with
        | Throw e => (Throw e, [request])
        | Return None => (Throw TypeError, [request])
        | Return (Some data) => (Return (channels data), [request])
        end
      else (Throw (Rejected "Failed to fetch data"), [request])
  end.

Definition getUsers (net : Network) (id channelId : option string)
  : Outcome (option (list Data)) * list Request :=
  let request :=
    Get ("/api/p/slack/users-by-channel?slackId=" +:+ interpolate id +:+
         "&channelId=" +:+ interpolate channelId) in
  match net request with
  | Throw e => (Throw e, [request])
  | Return res =>
      if ok res then
        match json res with
        | Throw e => (Throw e, [request])
        | Return None => (Throw TypeError, [request])
        | Return (Some data) => (Return (users data), [request])
        end
      else (Throw (Rejected "Failed to fetch data"), [request])
  end.

(** [user.externalAccounts[0].providerUserId] *)
Definition firstProviderUserId (user : User) : Outcome string :=
  match externalAccounts user with
  | [] => Throw TypeError
  | account :: _ => Return (providerUserId account)
  end.

(** What running an effect leaves behind: the state setter calls, the
    requests made, and the rejections of the detached async function, which
    nobody handles. *)
Inductive Update :=
| SetChannels (data : option (list Data))
| SetUsers (data : option (list Data)).

Record Effect := {
  updates : list Update;
  requests : list Request;
  unhandled : list Error
}.

Definition noEffect : Effect := {| updates := []; requests := []; unhandled := [] |}.

(** The effect on [[user]]. *)
Definition channelsEffect (net : Network) (user : option User) : Effect :=
  match user with
  | None => noEffect
  | Some user =>
      match firstProviderUserId user with
      | Throw e => {| updates := []; requests := []; unhandled := [e] |}
      | Return id =>
          match getChannels net (Some id) with
          | (Return data, reqs) =>
              {| updates := [SetChannels data]; requests := reqs; unhandled := [] |}
          | (Throw e, reqs) =>
              {| updates := []; requests := reqs; unhandled := [e] |}
          end
      end
  end.

(** The effect on [[user, selectedChannel]]. *)
Definition usersEffect (net : Network) (user : option User)
  (selectedChannel : option string) : Effect :=
  match user, truthy selectedChannel with
  | Some user, Some channel =>
      match firstProviderUserId user with
      | Throw e => {| updates := []; requests := []; unhandled := [e] |}
      | Return id =>
          match getUsers net (Some id) (Some channel) with
          | (Return data, reqs) =>
              {| updates := [SetUsers data]; requests := reqs; unhandled := [] |}
          | (Throw e, reqs) =>
              {| updates := []; requests := reqs; unhandled := [e] |}
          end
      end
  | _, _ => noEffect
  end.

(** [{ k: v }] in an object that is then serialized. *)
Definition setField (k : string) (v : option JsValue) (o : gmap string JsValue)
  : gmap string JsValue :=
  match v with
  | Some v => <[k := v]> o
  | None => o
  end.

(** The [newStandup] object literal of [onSubmit]. *)
Definition newStandup (data : gmap string JsValue) (authorId : string)
  : gmap string JsValue :=
  setField "name" (data !! "name")
    (setField "channelId" (data !! "channelId")
       (setField "scheduleCron" (data !! "scheduleCron")
          (setField "summaryCron" (data !! "summaryCron")
             (setField "authorId" (Some (JsString authorId))
                (setField "members" (data !! "members") ∅))))).

(** [onSubmit]: the outcome of the handler, the requests made and what went
    to the console.  The request is not awaited; its rejection is caught
    and logged. *)
Definition onSubmit (net : Network) (user : option User) (data : gmap string JsValue)
  : Outcome unit * list Request * list Console :=
  match user with
  | None => (Throw TypeError, [], [LogData data])
  | Some user =>
      match firstProviderUserId user with
      | Throw e => (Throw e, [], [LogData data])
      | Return authorId =>
          let request := Post "/api/p/standups/create" (newStandup data authorId) in
          match net request with
          | Return _ => (Return tt, [request], [LogData data])
          | Throw err => (Return tt, [request], [LogData data; LogError err])
          end
      end
  end.

(** *** The form schema

    [zod.string().nonempty()]: a string of length at least one. *)
Definition nonemptyString (v : option JsValue) : bool :=
  match v with
  | Some (JsString s) => negb (String.eqb s "")
  | _ => false
  end.

Definition isString (v : JsValue) : bool :=
  match v with
  | JsString _ => true
  | _ => false
  end.

(** [zod.array(zod.string()).nonempty()]: an array of strings with at least
    one item. *)
Definition nonemptyStringArray (v : option JsValue) : bool :=
  match v with
  | Some (JsArray (item :: items)) => forallb isString (item :: items)
  | _ => false
  end.

Definition schemaKeys : gset string :=
  {[ "name"; "channelId"; "members"; "scheduleCron"; "summaryCron" ]}.

(** [schema]: does the object parse?  [.strict()] refuses unknown keys. *)
Definition schema (data : gmap string JsValue) : bool :=
  nonemptyString (data !! "name") &&
  nonemptyString (data !! "channelId") &&
  nonemptyStringArray (data !! "members") &&
  nonemptyString (data !! "scheduleCron") &&
  nonemptyString (data !! "summaryCron") &&
  bool_decide (dom data ⊆ schemaKeys).

(** A filled form and a signed-in user. *)
Definition filledForm : gmap string JsValue :=
  <["name" := JsString "Daily"]>
    (<["channelId" := JsString "C1"]>
       (<["members" := JsArray [JsString "U1"; JsString "U2"]]>
          (<["scheduleCron" := JsString "0 7 * * 1-5"]>
             (<["summaryCron" := JsString "0 11 * * 1-5"]> ∅)))).

Definition admin : User := {| externalAccounts := [ {| providerUserId := "U0" |} ] |}.

(** A backend that is down. *)
Definition offline : Network := fun _ => Throw (Rejected "Failed to fetch").

(** A backend that answers every request with an error page. *)
Definition failing : Network :=
  fun _ => Return {| ok := false; json := Throw (Rejected "Unexpected token") |}.

End CreateForm.

(** ** Basic facts *)

Lemma store_same l cs h : store l cs h l = cs.
Proof. unfold store. by rewrite Nat.eqb_refl. Qed.

Lemma store_other l l' cs h : l' <> l -> store l cs h l' = h l'.
Proof.
  intros Hne. unfold store.
  destruct (Nat.eqb_spec l' l); [contradiction | reflexivity].
Qed.

Ltac heap_simpl :=
  repeat first
    [ rewrite store_same
    | rewrite store_other by assumption
    | progress (unfold setUser, alterUser; simpl)
    | rewrite alter_insert_eq
    | rewrite insert_insert_eq
    | rewrite lookup_insert_eq
    | rewrite <- app_assoc ].

Lemma firstInitTs_fresh v member cs :
  firstInitTs
    (alterUser (setMeta v) member (setUser member createConversationStateMember cs))
    member = None.
Proof. unfold firstInitTs. heap_simpl. reflexivity. Qed.

Lemma initMember_initiated gw BOT member w :
  exists o w' seg e,
    initMember gw BOT (conversationState BOT) member w = (o, w') /\
    initiated BOT member seg e o /\
    trace w' = trace w ++ seg /\
    users (heap w' (conversationState BOT))
      = <[member := e]> (users (heap w (conversationState BOT))) /\
    forall l, l <> conversationState BOT -> heap w' l = heap w l.
Proof.
  unfold initMember, addUserMeta, openConversation, postMessage, bind, mutate,
    await, deref, ret.
  simpl.
  destruct (gw_userMeta gw (trace w) member) as [v|err] eqn:Hmeta; simpl.
  2:{ eexists _, _, _, _. split; [reflexivity|]. split; [apply init_meta_throws|].
      repeat split; intros; heap_simpl; reflexivity. }
  destruct (gw_openConversation gw _ (token BOT) member) as [c|err] eqn:Hopen; simpl.
  2:{ eexists _, _, _, _. split; [reflexivity|]. split; [apply init_open_throws|].
      repeat split; intros; heap_simpl; reflexivity. }
  destruct (truthy c) as [channel|] eqn:Hc; simpl.
  2:{ eexists _, _, _, _. split; [reflexivity|]. split; [exact (init_no_channel BOT member v c Hc)|].
      repeat split; intros; heap_simpl; reflexivity. }
  rewrite store_same, store_same, firstInitTs_fresh. simpl.
  destruct (gw_postMessage gw _ (token BOT) channel _ _) as [p|err] eqn:Hpost; simpl.
  2:{ eexists _, _, _, _. split; [reflexivity|].
      split; [exact (init_post_throws BOT member v c channel err Hc)|].
      repeat split; intros; heap_simpl; reflexivity. }
  destruct (truthy (initMessageTs p)) as [t|] eqn:Ht; simpl.
  - eexists _, _, _, _. split; [reflexivity|].
    split; [exact (init_posted BOT member v c channel p t Hc Ht)|].
    repeat split; intros; heap_simpl; reflexivity.
  - eexists _, _, _, _. split; [reflexivity|].
    split; [exact (init_not_posted BOT member v c channel p Hc Ht)|].
    repeat split; intros; heap_simpl; reflexivity.
Qed.

Lemma bind_eq {A B} (c : M A) (k : A -> M B) w o w' :
  c w = (o, w') ->
  bind c k w = match o with Return a => k a w' | Throw e => (Throw e, w') end.
Proof. intros H. unfold bind. rewrite H. reflexivity. Qed.

Lemma forOf_initiatedAll gw BOT ms : forall w,
  exists o w' runs,
    forOf ms (initMember gw BOT (conversationState BOT)) w = (o, w') /\
    initiatedAll BOT ms (users (heap w (conversationState BOT))) runs
      (users (heap w' (conversationState BOT))) o /\
    trace w' = trace w ++ concat (map snd runs) /\
    forall l, l <> conversationState BOT -> heap w' l = heap w l.
Proof.
  induction ms as [|member rest IH]; intros w; simpl.
  - exists (Return tt), w, []. simpl. rewrite app_nil_r.
    repeat split. constructor.
  - destruct (initMember_initiated gw BOT member w)
      as (o & w1 & seg & e & Hrun & Hinit & Htr & Hus & Hfr).
    rewrite (bind_eq _ _ _ _ _ Hrun).
    destruct o as [[]|err].
    + destruct (IH w1) as (o & w' & runs & Hloop & Hall & Htr' & Hfr').
      exists o, w', ((member, seg) :: runs). split; [exact Hloop|].
      split; [|split].
      * eapply all_next; [exact Hinit|]. rewrite <- Hus. exact Hall.
      * rewrite Htr', Htr. simpl. by rewrite app_assoc.
      * intros l Hl. rewrite Hfr', Hfr; auto.
    + exists (Throw err), w1, [(member, seg)]. split; [reflexivity|].
      split; [|split].
      * rewrite Hus. by apply all_throw.
      * simpl. by rewrite app_nil_r.
      * exact Hfr.
Qed.

(** The shape of every run of [initStandup]. *)
Lemma initStandup_run gw BOT w :
  exists o w' c runs,
    initStandup gw BOT w = (o, w') /\
    trace w' = trace w ++ runTrace c runs o /\
    (forall l, l <> conversationState BOT -> heap w' l = heap w l) /\
    ((c = Return tt /\
      initiatedAll BOT (members BOT) (users (heap w (conversationState BOT))) runs
        (users (heap w' (conversationState BOT))) o)
     \/ (exists err, c = Throw err /\ o = Throw err /\ runs = [] /\
                     heap w' = heap w)).
Proof.
  unfold initStandup, send, connect, bind, emit, await. simpl.
  destruct (gw_connect gw (trace w ++ [EvSend "INIT"])) as [[]|err] eqn:Hc.
  - destruct (forOf_initiatedAll gw BOT (members BOT)
                {| heap := heap w;
                   trace := (trace w ++ [EvSend "INIT"]) ++ [EvConnect (Return tt)] |})
      as (o & w' & runs & Hloop & Hall & Htr & Hfr).
    simpl in *. rewrite Hloop.
    destruct o as [[]|err].
    + eexists _, _, (Return tt), runs. split; [reflexivity|]. simpl.
      split; [|split; [exact Hfr|left; by split]].
      rewrite Htr, <- !app_assoc. reflexivity.
    + eexists _, _, (Return tt), runs. split; [reflexivity|]. simpl.
      split; [|split; [exact Hfr|left; by split]].
      rewrite Htr, <- !app_assoc. unfold runTrace. simpl. by rewrite app_nil_r.
  - eexists _, _, (Throw err), []. split; [reflexivity|]. simpl.
    split; [by rewrite <- app_assoc|].
    split; [reflexivity|]. right. by exists err.
Qed.

(** ** The loop, relationally *)

Lemma initiatedAll_reached BOT ms u runs u' o :
  initiatedAll BOT ms u runs u' o ->
  map fst runs `prefix_of` ms /\ (o = Return tt -> map fst runs = ms).
Proof.
  induction 1 as [u|member rest u seg e err Hm
                 |member rest u seg e runs u' o Hm Hall [IHp IHr]]; simpl.
  - split; [reflexivity | done].
  - split; [|discriminate]. apply prefix_cons, prefix_nil.
  - split; [by apply prefix_cons|]. intros Ho. by rewrite IHr.
Qed.

Lemma initiatedAll_unreached BOT ms u runs u' o k :
  initiatedAll BOT ms u runs u' o -> k ∉ ms -> u' !! k = u !! k.
Proof.
  induction 1 as [u|member rest u seg e err Hm
                 |member rest u seg e runs u' o Hm Hall IH]; intros Hk.
  - reflexivity.
  - apply lookup_insert_ne. set_solver.
  - rewrite IH by set_solver. apply lookup_insert_ne. set_solver.
Qed.

(** With distinct members, the entry a member's iteration leaves is the
    one found when the loop ends. *)
Lemma initiatedAll_entries BOT ms u runs u' o :
  initiatedAll BOT ms u runs u' o -> NoDup ms ->
  Forall (fun run =>
            exists e o', u' !! run.1 = Some e /\
                         initiated BOT run.1 run.2 e o' /\
                         (o = Return tt -> o' = Return tt)) runs.
Proof.
  induction 1 as [u|member rest u seg e err Hm
                 |member rest u seg e runs u' o Hm Hall IH]; intros Hnd.
  - constructor.
  - constructor; [|constructor]. exists e, (Throw err). simpl.
    split; [apply lookup_insert_eq|]. split; [exact Hm | discriminate].
  - apply NoDup_cons in Hnd as [Hnotin Hnd].
    constructor; [|by apply IH]. exists e, (Return tt). simpl.
    split; [|by split].
    rewrite (initiatedAll_unreached _ _ _ _ _ _ _ Hall Hnotin).
    apply lookup_insert_eq.
Qed.

(** Distinct or not, every member of a loop that returned has the entry
    its last iteration left. *)
Lemma initiatedAll_member BOT ms u runs u' o :
  initiatedAll BOT ms u runs u' o -> o = Return tt ->
  forall m, m ∈ ms ->
    exists e seg, u' !! m = Some e /\ initiated BOT m seg e (Return tt).
Proof.
  induction 1 as [u|member rest u seg e err Hm
                 |member rest u seg e runs u' o Hm Hall IH]; intros Ho m Hin.
  - by apply elem_of_nil in Hin.
  - discriminate.
  - destruct (decide (m ∈ rest)) as [Hrest|Hrest]; [by apply IH|].
    apply elem_of_cons in Hin as [->|Hin]; [|contradiction].
    exists e, seg. split; [|exact Hm].
    rewrite (initiatedAll_unreached _ _ _ _ _ _ _ Hall Hrest).
    apply lookup_insert_eq.
Qed.

Lemma initiatedAll_segments BOT ms u runs u' o :
  initiatedAll BOT ms u runs u' o ->
  Forall (fun run => exists e o', initiated BOT run.1 run.2 e o') runs.
Proof.
  induction 1; repeat constructor; simpl; eauto.
Qed.

(** *** What one member's calls look like *)

Lemma initiated_no_update BOT member seg e o :
  initiated BOT member seg e o -> Forall (fun ev => isUpdateMessage ev = false) seg.
Proof. destruct 1; repeat constructor. Qed.

Lemma initiated_no_send BOT member seg e o :
  initiated BOT member seg e o -> Forall (fun ev => isSend ev = false) seg.
Proof. destruct 1; repeat constructor. Qed.

Lemma initiated_log BOT member seg e o :
  initiated BOT member seg e o ->
  INIT (botMessages e) = recordedBy seg /\ answers e = Some [].
Proof.
  destruct 1 as [| | |? ? ? ? Hc|? ? ? ? Hc Ht|? ? ? ? ? Hc Ht]; simpl;
    rewrite ?Ht; by split.
Qed.

Lemma Forall_segments {P : Event -> Prop} {Q : string * list Event -> Prop} runs :
  Forall Q runs -> (forall run, Q run -> Forall P run.2) ->
  Forall P (concat (map snd runs)).
Proof.
  intros Hruns HQ. apply Forall_concat, Forall_fmap.
  eapply Forall_impl; [exact Hruns|]. exact HQ.
Qed.

(** ** Recovery of an interrupted round *)

(** C1 (defect): [initStandup] never issues an [updateMessage] call,
    whatever state it starts from.  The reference it keeps to the previous
    state is the state object itself, and the member's entry in it has been
    replaced by a fresh one before the previously posted prompt is looked
    up; so a prompt left over from an interrupted round is not edited to
    the placeholder and stays interactive beside the new one. *)
Theorem initStandup_never_supersedes gw BOT w :
  exists new,
    trace (initStandup gw BOT w).2 = trace w ++ new /\
    Forall (fun ev => isUpdateMessage ev = false) new.
Proof.
  destruct (initStandup_run gw BOT w)
    as (o & w' & c & runs & Hrun & Htr & _ & Hshape).
  rewrite Hrun. simpl. exists (runTrace c runs o). split; [exact Htr|].
  unfold runTrace. repeat constructor.
  apply Forall_app. split.
  - destruct Hshape as [[_ Hall]|(err & _ & _ & -> & _)]; [|constructor].
    eapply Forall_segments; [exact (initiatedAll_segments _ _ _ _ _ _ Hall)|].
    intros run (e & o' & Hi). exact (initiated_no_update _ _ _ _ _ Hi).
  - destruct o; repeat constructor.
Qed.

(** The recovered round of the example: [U1]'s prompt posted at [100] is
    never touched, a second prompt is posted, and the state only knows the
    new reference. *)
Example initStandup_recovered_round :
  trace (initStandup slack standupBot recovered).2 =
    [ EvSend "INIT"; EvConnect (Return tt);
      EvAddUserMeta "U1" (Return (Some "U1"));
      EvOpenConversation "xoxb" "U1" (Return (Some "D-U1"));
      EvPostMessage "xoxb" "D-U1" initText (initBlocks standupBot)
        (Return (Some {| posted_ts := Some "200" |}));
      EvAddUserMeta "U2" (Return (Some "U2"));
      EvOpenConversation "xoxb" "U2" (Return (Some "D-U2"));
      EvPostMessage "xoxb" "D-U2" initText (initBlocks standupBot) (Return None);
      EvSend "INIT_DONE" ] /\
  firstInitTs (heap recovered 0) "U1" = Some "100" /\
  firstInitTs (heap (initStandup slack standupBot recovered).2 0) "U1" = Some "200".
Proof. vm_compute. auto. Qed.

(** The loop body itself would supersede: run with a reference to another
    object holding the recovered contents (a snapshot), it edits the prompt
    at [100] to the placeholder before posting.  In [initStandup] the
    reference is the live state object, whose entry has just been replaced. *)
Example initMember_with_snapshot_supersedes :
  trace (initMember slack standupBot 1 "U1" recovered).2 =
    [ EvAddUserMeta "U1" (Return (Some "U1"));
      EvOpenConversation "xoxb" "U1" (Return (Some "D-U1"));
      EvUpdateMessage "xoxb" "D-U1" "100" "---" supersededBlocks (Return tt);
      EvPostMessage "xoxb" "D-U1" initText (initBlocks standupBot)
        (Return (Some {| posted_ts := Some "200" |})) ].
Proof. vm_compute. reflexivity. Qed.

(** ** Click handlers *)

Ltac run_handler :=
  unfold notWorkingClickHandler, startStandupClickHandler, assignAnswersNull, ack,
    notWorking, startStandup, send, bind, await, lift, deref, mutate, emit, throw,
    ret;
  simpl.

Ltac case_match_goal :=
  match goal with
  | |- context [match ?x with _ => _ end] =>
      lazymatch x with
      | context [match _ with _ => _ end] => fail
      | _ => destruct x eqn:?; simpl
      end
  end.

(** A well-formed click whose calls are answered runs the handler to its
    end. *)
Lemma notWorkingClickHandler_click gw BOT body w channel t uid e :
  clickOn body channel t uid ->
  users (heap w (conversationState BOT)) !! propertyKey uid = Some e ->
  gw_ack gw (trace w) = Return tt ->
  gw_notWorking gw (trace w ++ [EvAck (Return tt)]) (token BOT) channel t = Return tt ->
  notWorkingClickHandler gw BOT body w =
    (Return tt,
     {| heap := store (conversationState BOT)
                  (alterUser setAnswersNull (propertyKey uid)
                     (heap w (conversationState BOT)))
                  (heap w);
        trace := trace w ++ [EvAck (Return tt);
                             EvNotWorking (token BOT) channel t (Return tt);
                             EvSend "NOT_WORKING"] |}).
Proof.
  intros (Hch & (v & Hts & Hv) & Huid) He Hack Hnw. run_handler.
  rewrite Hack, Hts, Hch, Hv. simpl. rewrite Hnw, Huid. simpl. rewrite He. simpl.
  by rewrite <- !app_assoc.
Qed.

(** The handler either leaves the store alone or nulls the answers of the
    acting member's existing entry. *)
Lemma notWorkingClickHandler_store gw BOT body w :
  heap (notWorkingClickHandler gw BOT body w).2 = heap w \/
  exists uid e,
    body_user_id body = Return uid /\
    users (heap w (conversationState BOT)) !! propertyKey uid = Some e /\
    heap (notWorkingClickHandler gw BOT body w).2 =
      store (conversationState BOT)
        (alterUser setAnswersNull (propertyKey uid) (heap w (conversationState BOT)))
        (heap w).
Proof.
  run_handler.
  destruct (gw_ack gw (trace w)) as [[]|]; simpl; [|by left].
  destruct (body_message_ts body) as [v|]; simpl; [|by left].
  destruct (truthy (body_channel_id body)) as [channel|]; simpl; [|by left].
  destruct (truthy v) as [t|]; simpl; [|by left].
  destruct (gw_notWorking gw _ (token BOT) channel t) as [[]|]; simpl; [|by left].
  destruct (body_user_id body) as [uid|]; simpl; [|by left].
  destruct (users (heap w (conversationState BOT)) !! propertyKey uid)
    as [e|] eqn:He; simpl;
    [|by destruct (inheritedProperty (propertyKey uid)); left].
  right. by exists uid, e.
Qed.

Lemma notWorkingClickHandler_ack_first gw BOT body w :
  exists rest,
    trace (notWorkingClickHandler gw BOT body w).2 =
    trace w ++ EvAck (gw_ack gw (trace w)) :: rest.
Proof.
  run_handler. repeat case_match_goal; rewrite <- ?app_assoc; simpl; eauto.
Qed.

Lemma startStandupClickHandler_ack_first gw BOT body w :
  exists rest,
    trace (startStandupClickHandler gw BOT body w).2 =
    trace w ++ EvAck (gw_ack gw (trace w)) :: rest.
Proof.
  run_handler. repeat case_match_goal; rewrite <- ?app_assoc; simpl; eauto.
Qed.

Lemma alterUser_id f k cs :
  (forall e, users cs !! k = Some e -> f e = e) -> alterUser f k cs = cs.
Proof.
  intros Hf. destruct cs as [u]. unfold alterUser. simpl in *.
  f_equal. by apply alter_id.
Qed.

Lemma setAnswersNull_optedOut e : answers e = None -> setAnswersNull e = e.
Proof. destruct e. simpl. by intros ->. Qed.

Lemma alter_lookup_insert (f : ConversationStateMember -> ConversationStateMember)
  (u : gmap string ConversationStateMember) k e :
  u !! k = Some e -> alter f k u = <[k := f e]> u.
Proof.
  intros He. apply map_eq. intros j. rewrite lookup_alter, lookup_insert.
  case_decide as Hj; [|reflexivity]. subst j. by rewrite He.
Qed.

(** C7: both click handlers acknowledge the event before anything else,
    however the handling ends; an event that misses the channel id or the
    message timestamp is dropped right after the acknowledgment: the store
    is untouched and no further call is made. *)
Theorem click_handlers_acknowledge_first gw BOT body w :
  let nw := notWorkingClickHandler gw BOT body w in
  let ss := startStandupClickHandler gw BOT body w in
  let acked := trace w ++ [EvAck (gw_ack gw (trace w))] in
  (exists rest, trace nw.2 = acked ++ rest) /\
  (exists rest, trace ss.2 = acked ++ rest) /\
  (malformed body ->
     nw.2 = {| heap := heap w; trace := acked |} /\
     ss.2 = {| heap := heap w; trace := acked |}).
Proof.
  intros nw ss acked. subst nw ss acked. split; [|split].
  - destruct (notWorkingClickHandler_ack_first gw BOT body w) as [rest Hrest].
    exists rest. by rewrite Hrest, <- app_assoc.
  - destruct (startStandupClickHandler_ack_first gw BOT body w) as [rest Hrest].
    exists rest. by rewrite Hrest, <- app_assoc.
  - intros Hmal. unfold malformed in Hmal. run_handler.
    destruct (gw_ack gw (trace w)) as [[]|]; simpl; [|by split].
    destruct (body_message_ts body) as [v|]; simpl; [|by split].
    destruct Hmal as [Hch|Hts].
    + rewrite Hch. by split.
    + rewrite Hts. destruct (truthy (body_channel_id body)); by split.
Qed.

Lemma click_handlers_acknowledge_first_witness :
  malformed noChannelClick /\
  (notWorkingClickHandler slack standupBot noChannelClick recovered).2 =
    {| heap := heap recovered; trace := [EvAck (Return tt)] |} /\
  (startStandupClickHandler slack standupBot noChannelClick recovered).2 =
    {| heap := heap recovered; trace := [EvAck (Return tt)] |}.
Proof.
  assert (Hmal : malformed noChannelClick) by (left; reflexivity).
  split; [exact Hmal|].
  exact (proj2 (proj2 (click_handlers_acknowledge_first
                         slack standupBot noChannelClick recovered)) Hmal).
Defined.

(** C4: a "not working" click by a member who awaits its choice on the
    live prompt [R] edits exactly that message through [notWorking], nulls
    the member's answers and reports [NOT_WORKING]; the member is then
    opted out. *)
Theorem notWorkingClickHandler_opts_out gw BOT body w member channel R :
  awaitingChoice (heap w (conversationState BOT)) member R ->
  clickOn body channel (ts R) (Some member) ->
  gw_ack gw (trace w) = Return tt ->
  gw_notWorking gw (trace w ++ [EvAck (Return tt)]) (token BOT) channel (ts R)
    = Return tt ->
  let r := notWorkingClickHandler gw BOT body w in
  r.1 = Return tt /\
  trace r.2 = trace w ++ [EvAck (Return tt);
                          EvNotWorking (token BOT) channel (ts R) (Return tt);
                          EvSend "NOT_WORKING"] /\
  optedOut (heap r.2 (conversationState BOT)) member /\
  exists e,
    users (heap w (conversationState BOT)) !! member = Some e /\
    users (heap r.2 (conversationState BOT))
      = <[member := setAnswersNull e]> (users (heap w (conversationState BOT))).
Proof.
  intros (e & He & _ & _) Hclick Hack Hnw r. subst r.
  rewrite (notWorkingClickHandler_click gw BOT body w channel (ts R) (Some member) e
             Hclick He Hack Hnw).
  simpl. rewrite store_same. unfold alterUser. simpl.
  rewrite (alter_lookup_insert _ _ _ _ He).
  split; [reflexivity|]. split; [reflexivity|]. split.
  - exists (setAnswersNull e). simpl. by rewrite lookup_insert_eq.
  - by exists e.
Qed.

Lemma notWorkingClickHandler_opts_out_witness :
  awaitingChoice (heap recovered 0) "U1" {| ts := "100" |} /\
  clickOn liveClick "D-U1" "100" (Some "U1") /\
  (notWorkingClickHandler slack standupBot liveClick recovered).1 = Return tt /\
  optedOut (heap (notWorkingClickHandler slack standupBot liveClick recovered).2 0)
    "U1".
Proof.
  assert (Hwait : awaitingChoice (heap recovered 0) "U1" {| ts := "100" |}).
  { eexists. split; [reflexivity|]. split; [reflexivity | discriminate]. }
  assert (Hclick : clickOn liveClick "D-U1" "100" (Some "U1")).
  { split; [reflexivity|]. split; [|reflexivity].
    exists (Some "100"). split; reflexivity. }
  split; [exact Hwait|]. split; [exact Hclick|].
  destruct (notWorkingClickHandler_opts_out slack standupBot liveClick recovered
              "U1" "D-U1" {| ts := "100" |} Hwait Hclick eq_refl eq_refl)
    as (Hret & _ & Hout & _).
  split; [exact Hret | exact Hout].
Defined.

(** C2, as stated, fails: [U1] awaits its choice on the prompt posted at
    [100] and clicks the older message [099]; the handler does not compare
    the reference and opts the member out. *)
Lemma older_click_is_not_ignored :
  staleClick (heap recovered 0) olderClick /\
  ~ acknowledgedNoOp slack standupBot olderClick recovered.
Proof.
  split.
  - exists "U1", "099". split; [reflexivity|]. split; [reflexivity|].
    split; [by eexists|]. vm_compute. discriminate.
  - intros (_ & Hheap & _).
    apply (f_equal (fun cs => answers <$> users cs !! "U1")) in Hheap.
    vm_compute in Hheap. discriminate.
Qed.

(** C2, amended: the handler acknowledges first and checks neither the
    member's state, nor the clicked reference, nor membership.  The store is
    left as it was when the acting member has no entry or has already opted
    out; for any other well-formed click, live or not, whose calls are
    answered, it nulls the member's answers, after editing the clicked
    message, and reports [NOT_WORKING]. *)
Theorem notWorkingClickHandler_unchecked gw BOT body w :
  let r := notWorkingClickHandler gw BOT body w in
  let l := conversationState BOT in
  (exists rest, trace r.2 = trace w ++ EvAck (gw_ack gw (trace w)) :: rest) /\
  (forall uid, body_user_id body = Return uid ->
     users (heap w l) !! propertyKey uid = None -> heap r.2 l = heap w l) /\
  (forall uid, body_user_id body = Return uid ->
     optedOut (heap w l) (propertyKey uid) -> heap r.2 l = heap w l) /\
  (forall channel t uid e,
     clickOn body channel t uid ->
     users (heap w l) !! propertyKey uid = Some e ->
     gw_ack gw (trace w) = Return tt ->
     gw_notWorking gw (trace w ++ [EvAck (Return tt)]) (token BOT) channel t
       = Return tt ->
     r.1 = Return tt /\
     users (heap r.2 l) = <[propertyKey uid := setAnswersNull e]> (users (heap w l)) /\
     trace r.2 = trace w ++ [EvAck (Return tt);
                             EvNotWorking (token BOT) channel t (Return tt);
                             EvSend "NOT_WORKING"]).
Proof.
  intros r l. subst r l. split; [|split; [|split]].
  - apply notWorkingClickHandler_ack_first.
  - intros uid Huid Hnone.
    destruct (notWorkingClickHandler_store gw BOT body w)
      as [->|(uid' & e & Huid' & He & _)]; [reflexivity|].
    rewrite Huid in Huid'. injection Huid' as <-. congruence.
  - intros uid Huid (e & He & Hnull).
    destruct (notWorkingClickHandler_store gw BOT body w)
      as [->|(uid' & e' & Huid' & He' & ->)]; [reflexivity|].
    rewrite Huid in Huid'. injection Huid' as <-.
    rewrite store_same. apply alterUser_id.
    intros e0 He0. apply setAnswersNull_optedOut. congruence.
  - intros channel t uid e Hclick He Hack Hnw.
    rewrite (notWorkingClickHandler_click gw BOT body w channel t uid e
               Hclick He Hack Hnw).
    simpl. rewrite store_same. unfold alterUser. simpl.
    by rewrite (alter_lookup_insert _ _ _ _ He).
Qed.

Lemma notWorkingClickHandler_unchecked_witness :
  clickOn olderClick "D-U1" "099" (Some "U1") /\
  staleClick (heap recovered 0) olderClick /\
  (notWorkingClickHandler slack standupBot olderClick recovered).1 = Return tt /\
  trace (notWorkingClickHandler slack standupBot olderClick recovered).2 =
    [EvAck (Return tt); EvNotWorking "xoxb" "D-U1" "099" (Return tt);
     EvSend "NOT_WORKING"].
Proof.
  assert (Hclick : clickOn olderClick "D-U1" "099" (Some "U1")).
  { split; [reflexivity|]. split; [|reflexivity].
    exists (Some "099"). split; reflexivity. }
  split; [exact Hclick|].
  split.
  { exists "U1", "099". split; [reflexivity|]. split; [reflexivity|].
    split; [by eexists|]. vm_compute. discriminate. }
  destruct (proj2 (proj2 (proj2
              (notWorkingClickHandler_unchecked slack standupBot olderClick recovered)))
              "D-U1" "099" (Some "U1")
              {| botMessages := {| INIT := [ {| ts := "100" |} ] |};
                 answers := Some []; meta := Some "U1" |}
              Hclick eq_refl eq_refl eq_refl)
    as (Hret & _ & Htr).
  split; [exact Hret | exact Htr].
Defined.

(** ** Runs of [initStandup] over distinct members *)

Lemma initStandup_members gw BOT w :
  NoDup (members BOT) ->
  exists c runs,
    trace (initStandup gw BOT w).2 = trace w ++ runTrace c runs (initStandup gw BOT w).1 /\
    map fst runs `prefix_of` members BOT /\
    ((initStandup gw BOT w).1 = Return tt -> c = Return tt /\ map fst runs = members BOT) /\
    Forall (fun run =>
              exists e o',
                users (heap (initStandup gw BOT w).2 (conversationState BOT)) !! run.1
                  = Some e /\
                initiated BOT run.1 run.2 e o' /\
                ((initStandup gw BOT w).1 = Return tt -> o' = Return tt)) runs.
Proof.
  intros Hnd.
  destruct (initStandup_run gw BOT w)
    as (o & w' & c & runs & Hrun & Htr & _ & Hshape).
  rewrite Hrun. simpl. exists c, runs. split; [exact Htr|].
  destruct Hshape as [[-> Hall]|(err & -> & -> & -> & _)].
  - destruct (initiatedAll_reached _ _ _ _ _ _ Hall) as [Hpre Hret].
    split; [exact Hpre|]. split; [by intros ?; split; auto|].
    by eapply initiatedAll_entries.
  - split; [apply prefix_nil|]. split; [discriminate | constructor].
Qed.

Lemma initMember_returns gw BOT member w :
  gatewayReturns gw ->
  (initMember gw BOT (conversationState BOT) member w).1 = Return tt.
Proof.
  intros (_ & Hmeta & Hopen & Hpost).
  unfold initMember, addUserMeta, openConversation, postMessage, bind, mutate,
    await, deref, ret.
  simpl.
  destruct (Hmeta (trace w) member) as [v ->]. simpl.
  destruct (Hopen (trace w ++ [EvAddUserMeta member (Return v)]) (token BOT) member)
    as [c ->]. simpl.
  destruct (truthy c) as [channel|]; simpl; [|reflexivity].
  rewrite store_same, store_same, firstInitTs_fresh. simpl.
  match goal with
  | |- context [gw_postMessage gw ?h ?tok ?ch ?text ?bl] =>
      destruct (Hpost h tok ch text bl) as [p ->]
  end.
  simpl. by destruct (truthy (initMessageTs p)).
Qed.

Lemma forOf_returns gw BOT ms :
  gatewayReturns gw -> forall w,
  (forOf ms (initMember gw BOT (conversationState BOT)) w).1 = Return tt.
Proof.
  intros Hgw. induction ms as [|member rest IH]; intros w; simpl; [reflexivity|].
  unfold bind.
  pose proof (initMember_returns gw BOT member w Hgw) as Hm.
  destruct (initMember gw BOT (conversationState BOT) member w) as [o w1].
  simpl in Hm. subst o. apply IH.
Qed.

Lemma initStandup_returns gw BOT w :
  gatewayReturns gw -> (initStandup gw BOT w).1 = Return tt.
Proof.
  intros Hgw. pose proof Hgw as (Hconn & _).
  unfold initStandup, send, connect, bind, emit, await. simpl.
  destruct (Hconn (trace w ++ [EvSend "INIT"])) as [[] ->].
  match goal with
  | |- context [forOf ?ms ?body ?w0] =>
      pose proof (forOf_returns gw BOT ms Hgw w0) as Hloop;
      destruct (forOf ms body w0) as [o w1]
  end.
  simpl in Hloop. by subst o.
Qed.

Lemma slack_returns : gatewayReturns slack.
Proof. repeat split; intros; eexists; reflexivity. Qed.

(** *** More on one member's calls *)

Lemma posts_length BOT member seg e o :
  initiated BOT member seg e o -> length (posts seg) <= 1.
Proof. destruct 1; simpl; lia. Qed.

(** A member whose conversation opens gets the initial prompt, once, and
    its log is what that post recorded; otherwise nothing is posted. *)
Lemma initiated_prompt BOT member seg e o :
  initiated BOT member seg e o ->
  (posts seg = [] /\ INIT (botMessages e) = [] /\
   forall c, In (EvOpenConversation (token BOT) member (Return c)) seg ->
             truthy c = None)
  \/ (exists c channel p,
        In (EvOpenConversation (token BOT) member (Return c)) seg /\
        truthy c = Some channel /\
        posts seg = [EvPostMessage (token BOT) channel initText (initBlocks BOT) p] /\
        INIT (botMessages e) = recorded p).
Proof.
  destruct 1 as [err|v err|v c Hc|v c channel err Hc|v c channel p Hc Ht
                |v c channel p t Hc Ht].
  - left. repeat split. intros c [Hin|[]]. discriminate.
  - left. repeat split. intros c [Hin|[Hin|[]]]; discriminate.
  - left. repeat split. intros c' [Hin|[Hin|[]]]; [discriminate|].
    injection Hin as <-. exact Hc.
  - right. exists c, channel, (Throw err). simpl. auto 6.
  - right. exists c, channel, (Return p). simpl. rewrite Ht. auto 6.
  - right. exists c, channel, (Return p). simpl. rewrite Ht. auto 6.
Qed.

Lemma initiated_entry BOT member seg e o :
  initiated BOT member seg e o ->
  exists a rest,
    seg = EvAddUserMeta member a :: rest /\
    e = {| botMessages := {| INIT := recordedBy rest |};
           answers := answers createConversationStateMember;
           meta := match a with Return v => v | Throw _ => None end |}.
Proof.
  destruct 1 as [err|v err|v c Hc|v c channel err Hc|v c channel p Hc Ht
                |v c channel p t Hc Ht];
    eexists _, _; (split; [reflexivity|]); simpl; rewrite ?Ht; reflexivity.
Qed.

Lemma initiated_own_calls BOT member seg e o :
  initiated BOT member seg e o ->
  exists channel, Forall (fun ev => callFor member channel ev = true) seg.
Proof.
  destruct 1 as [err|v err|v c Hc|v c channel err Hc|v c channel p Hc Ht
                |v c channel p t Hc Ht];
    try (exists None; repeat constructor; simpl; apply String.eqb_refl);
    exists (Some channel); repeat constructor; simpl;
      try apply String.eqb_refl; by apply bool_decide_eq_true.
Qed.

(** ** The initial prompt *)

(** Every member of a loop that returned has the entry its last
    iteration left, and that iteration is one of the runs. *)
Lemma initiatedAll_last BOT ms u runs u' o :
  initiatedAll BOT ms u runs u' o -> o = Return tt ->
  forall m, m ∈ ms ->
    exists seg e, In (m, seg) runs /\ u' !! m = Some e /\
                  initiated BOT m seg e (Return tt).
Proof.
  induction 1 as [u|member rest u seg e err Hm
                 |member rest u seg e runs u' o Hm Hall IH]; intros Ho m Hin.
  - by apply elem_of_nil in Hin.
  - discriminate.
  - destruct (decide (m ∈ rest)) as [Hrest|Hrest].
    + destruct (IH Ho m Hrest) as (seg' & e' & Hin' & He' & Hi').
      exists seg', e'. split; [by right|]. by split.
    + apply elem_of_cons in Hin as [->|Hin]; [|contradiction].
      exists seg, e. split; [by left|]. split; [|exact Hm].
      rewrite (initiatedAll_unreached _ _ _ _ _ _ _ Hall Hrest).
      apply lookup_insert_eq.
Qed.

Lemma initiated_promptCalls BOT member seg e o :
  initiated BOT member seg e o -> promptCalls BOT member seg.
Proof.
  destruct 1 as [err|v err|v c Hc|v c channel err Hc|v c channel p Hc Ht
                |v c channel p t Hc Ht]; unfold promptCalls.
  - left. by exists err.
  - right. left. by exists v, (Throw err).
  - right. left. by exists v, (Return c).
  - right. right. by exists v, c, channel, (Throw err).
  - right. right. by exists v, c, channel, (Return p).
  - right. right. by exists v, c, channel, (Return p).
Qed.

(** C5, as stated, fails: no conversation with [U2] opens, the run
    returns all the same, and [U2], a member of the run, is never posted a
    prompt: the only post of the run goes to [U1]. *)
Lemma member_without_conversation_is_not_prompted :
  (forall h tok, gw_openConversation slackClosedU2 h tok "U2" = Return None) /\
  (initStandup slackClosedU2 standupBot recovered).1 = Return tt /\
  promptedMembers (trace (initStandup slackClosedU2 standupBot recovered).2) = ["U1"] /\
  length (posts (trace (initStandup slackClosedU2 standupBot recovered).2)) = 1 /\
  ~ everyMemberPrompted slackClosedU2 standupBot recovered.
Proof.
  split; [reflexivity|]. split; [reflexivity|].
  assert (Hprompted :
    promptedMembers (trace (initStandup slackClosedU2 standupBot recovered).2) = ["U1"])
    by reflexivity.
  split; [exact Hprompted|]. split; [reflexivity|].
  intros Hall. specialize (Hall "U2" (or_intror (or_introl eq_refl))).
  rewrite Hprompted in Hall. destruct Hall as [H|[]]. discriminate.
Qed.

(** C5, amended: the prompt offers exactly the two choices "Not Working
    Today" and "Start Standup!", under the bot's two action ids.  For every
    member reached, the profile and then the conversation are requested,
    and exactly when the conversation opens the prompt is posted to it,
    once; a member whose conversation does not open is skipped.  When the
    run returns, every member's init log holds what the posts of its (last)
    iteration recorded: the returned reference when the post answered with
    a timestamp, nothing otherwise. *)
Theorem initStandup_prompts_opened_members gw BOT w :
  let r := initStandup gw BOT w in
  choices (initBlocks BOT) =
    [ {| button_text := "Not Working Today"; action_id := notButtonId BOT |};
      {| button_text := "Start Standup!"; action_id := startButtonId BOT |} ] /\
  exists c runs,
    trace r.2 = trace w ++ runTrace c runs r.1 /\
    map fst runs `prefix_of` members BOT /\
    (r.1 = Return tt -> map fst runs = members BOT) /\
    Forall (fun run => promptCalls BOT run.1 run.2) runs /\
    (r.1 = Return tt ->
     forall member, In member (members BOT) ->
       exists seg e,
         In (member, seg) runs /\
         users (heap r.2 (conversationState BOT)) !! member = Some e /\
         INIT (botMessages e) = recordedBy seg) /\
    (NoDup (members BOT) ->
     Forall (fun run =>
               exists e,
                 users (heap r.2 (conversationState BOT)) !! run.1 = Some e /\
                 INIT (botMessages e) = recordedBy run.2) runs).
Proof.
  intros r. subst r. split; [reflexivity|].
  destruct (initStandup_run gw BOT w)
    as (o & w' & c & runs & Hrun & Htr & _ & Hshape).
  rewrite Hrun. simpl. exists c, runs. split; [exact Htr|].
  destruct Hshape as [[_ Hall]|(err & _ & -> & -> & _)].
  - destruct (initiatedAll_reached _ _ _ _ _ _ Hall) as [Hpre Hret].
    split; [exact Hpre|]. split; [exact Hret|]. split; [|split].
    + eapply Forall_impl; [exact (initiatedAll_segments _ _ _ _ _ _ Hall)|].
      intros run (e & o' & Hi). exact (initiated_promptCalls _ _ _ _ _ Hi).
    + intros Ho member Hin.
      destruct (initiatedAll_last _ _ _ _ _ _ Hall Ho member)
        as (seg & e & Hin' & He & Hi); [by apply list_elem_of_In|].
      exists seg, e. split; [exact Hin'|]. split; [exact He|].
      exact (proj1 (initiated_log _ _ _ _ _ Hi)).
    + intros Hnd.
      eapply Forall_impl; [exact (initiatedAll_entries _ _ _ _ _ _ Hall Hnd)|].
      intros run (e & o' & He & Hi & _). exists e. split; [exact He|].
      exact (proj1 (initiated_log _ _ _ _ _ Hi)).
  - split; [apply prefix_nil|]. split; [discriminate|].
    split; [constructor|]. split; [discriminate|]. intros _. constructor.
Qed.

Lemma initStandup_prompts_opened_members_witness :
  (initStandup slack standupBot recovered).1 = Return tt /\
  In "U1" (members standupBot) /\
  NoDup (members standupBot) /\
  exists seg e,
    promptCalls standupBot "U1" seg /\
    users (heap (initStandup slack standupBot recovered).2 0) !! "U1" = Some e /\
    INIT (botMessages e) = recordedBy seg.
Proof.
  assert (Hin : In "U1" (members standupBot)) by (left; reflexivity).
  assert (Hnd : NoDup (members standupBot)) by compute_done.
  split; [reflexivity|]. split; [exact Hin|]. split; [exact Hnd|].
  destruct (initStandup_prompts_opened_members slack standupBot recovered)
    as (_ & c & runs & _ & _ & _ & Hcalls & Hlog & _).
  destruct (Hlog eq_refl "U1" Hin) as (seg & e & Hrun & He & Hinit).
  exists seg, e. split; [|by split].
  rewrite Forall_forall in Hcalls.
  exact (Hcalls ("U1", seg) (proj2 (list_elem_of_In _ _) Hrun)).
Defined.

(** ** The run state machine *)



(** ** Scheduling of the members *)

(** C8, as stated, fails: in the example round both members are called,
    and every call for [U2] comes after every call for [U1], the post to
    [U1] included. *)
Lemma second_member_waits_for_first :
  existsb (callFor "U1" (Some "D-U1"))
    (trace (initStandup slack standupBot recovered).2) = true /\
  existsb (callFor "U2" (Some "D-U2"))
    (trace (initStandup slack standupBot recovered).2) = true /\
  ~ notBlockedBy slack standupBot recovered "U1" "D-U1" "U2" "D-U2".
Proof.
  split; [reflexivity|]. split; [reflexivity|].
  unfold notBlockedBy. vm_compute. discriminate.
Qed.

(** C8, amended: the members are initiated strictly one after the other,
    in the order of [BOT.members]: the calls of a run are [connect]
    followed by one block per member reached, and a block holds calls for
    its own member only (its profile, its conversation, and posts to that
    conversation). *)
Theorem initStandup_is_sequential gw BOT w :
  let r := initStandup gw BOT w in
  exists c runs,
    trace r.2 = trace w ++ runTrace c runs r.1 /\
    map fst runs `prefix_of` members BOT /\
    (r.1 = Return tt -> map fst runs = members BOT) /\
    Forall (fun run =>
              exists channel,
                Forall (fun ev => callFor run.1 channel ev = true) run.2) runs.
Proof.
  intros r. subst r.
  destruct (initStandup_run gw BOT w)
    as (o & w' & c & runs & Hrun & Htr & _ & Hshape).
  rewrite Hrun. simpl. exists c, runs. split; [exact Htr|].
  destruct Hshape as [[-> Hall]|(err & -> & -> & -> & _)].
  - destruct (initiatedAll_reached _ _ _ _ _ _ Hall) as [Hpre Hret].
    split; [exact Hpre|]. split; [exact Hret|].
    eapply Forall_impl; [exact (initiatedAll_segments _ _ _ _ _ _ Hall)|].
    intros run (e & o' & Hi). exact (initiated_own_calls _ _ _ _ _ Hi).
  - split; [apply prefix_nil|]. split; [discriminate | constructor].
Qed.

Lemma initStandup_is_sequential_witness :
  (initStandup slack standupBot recovered).1 = Return tt /\
  exists c runs,
    trace (initStandup slack standupBot recovered).2 =
      trace recovered ++ runTrace c runs (Return tt) /\
    map fst runs = ["U1"; "U2"].
Proof.
  split; [reflexivity|].
  destruct (initStandup_is_sequential slack standupBot recovered)
    as (c & runs & Htr & _ & Hret & _).
  exists c, runs. split; [exact Htr | exact (Hret eq_refl)].
Defined.

(** ** Entries of the users map *)

(** C9: when [initStandup] returns, every member of the run has an entry
    in the users map: the freshly created one, with at most the one
    reference recorded for its post.  With distinct members, the entry of
    each member reached by the loop is the fresh one with the profile
    [addUserMeta] answered and what its post recorded: it is there even
    when the first call for the member is rejected, and its init log is
    empty when no conversation opened or the post brought no timestamp. *)
Theorem initStandup_creates_entries gw BOT w :
  let r := initStandup gw BOT w in
  (r.1 = Return tt ->
   forall member, In member (members BOT) ->
     exists e, users (heap r.2 (conversationState BOT)) !! member = Some e /\
               answers e = answers createConversationStateMember /\
               length (INIT (botMessages e)) <= 1) /\
  (NoDup (members BOT) ->
   exists c runs,
     trace r.2 = trace w ++ runTrace c runs r.1 /\
     (r.1 = Return tt -> map fst runs = members BOT) /\
     Forall (fun run =>
               exists a rest,
                 run.2 = EvAddUserMeta run.1 a :: rest /\
                 length (posts rest) <= 1 /\
                 users (heap r.2 (conversationState BOT)) !! run.1 =
                   Some {| botMessages := {| INIT := recordedBy rest |};
                           answers := answers createConversationStateMember;
                           meta := match a with
                                   | Return v => v
                                   | Throw _ => None
                                   end |})
            runs).
Proof.
  intros r. subst r. split.
  - destruct (initStandup_run gw BOT w)
      as (o & w' & c & runs & Hrun & _ & _ & Hshape).
    rewrite Hrun. simpl. intros -> member Hin.
    destruct Hshape as [[_ Hall]|(err & _ & Herr & _)]; [|discriminate].
    destruct (initiatedAll_member _ _ _ _ _ _ Hall eq_refl member)
      as (e & seg & He & Hi); [by apply list_elem_of_In|].
    exists e. split; [exact He|].
    destruct (initiated_log _ _ _ _ _ Hi) as [_ Hans].
    split; [exact Hans|].
    destruct (initiated_prompt _ _ _ _ _ Hi)
      as [(_ & -> & _)|(c' & channel & p & _ & _ & _ & ->)]; simpl; [lia|].
    unfold recorded. destruct p as [p|]; [|simpl; lia].
    destruct (truthy (initMessageTs p)); simpl; lia.
  - intros Hnd.
    destruct (initStandup_members gw BOT w Hnd)
      as (c & runs & Htr & _ & Hret & Hruns).
    exists c, runs. split; [exact Htr|]. split; [by intros H; apply Hret|].
    eapply Forall_impl; [exact Hruns|].
    intros run (e & o' & He & Hi & _).
    destruct (initiated_entry _ _ _ _ _ Hi) as (a & rest & Hseg & ->).
    exists a, rest. split; [exact Hseg|]. split; [|exact He].
    pose proof (posts_length _ _ _ _ _ Hi) as Hlen. rewrite Hseg in Hlen.
    exact Hlen.
Qed.

Lemma initStandup_creates_entries_witness :
  (initStandup slack standupBot recovered).1 = Return tt /\
  In "U2" (members standupBot) /\
  exists e,
    users (heap (initStandup slack standupBot recovered).2 0) !! "U2" = Some e /\
    answers e = answers createConversationStateMember /\
    length (INIT (botMessages e)) <= 1.
Proof.
  assert (Hin : In "U2" (members standupBot)) by (right; left; reflexivity).
  split; [reflexivity|]. split; [exact Hin|].
  exact (proj1 (initStandup_creates_entries slack standupBot recovered)
               eq_refl "U2" Hin).
Defined.

(** ** Members the prompt cannot be delivered to *)

(** C3, as stated, fails: no post to [U2]'s conversation ever brings a
    timestamp, yet the post is attempted once and [U2] is left with its
    fresh entry, not opted out. *)
Lemma undelivered_member_is_not_opted_out :
  (forall h tok text blocks,
     recorded (gw_postMessage slack h tok "D-U2" text blocks) = []) /\
  length (posts (List.filter (callFor "U2" (Some "D-U2"))
                   (trace (initStandup slack standupBot recovered).2))) = 1 /\
  users (heap (initStandup slack standupBot recovered).2 0) !! "U2" =
    Some (setMeta (Some "U2") createConversationStateMember) /\
  ~ optedOut (heap (initStandup slack standupBot recovered).2 0) "U2" /\
  ~ optedOutAfterRetries slack standupBot recovered "U2" "D-U2".
Proof.
  assert (Hentry :
    users (heap (initStandup slack standupBot recovered).2 0) !! "U2" =
      Some (setMeta (Some "U2") createConversationStateMember)) by reflexivity.
  assert (Hnot : ~ optedOut (heap (initStandup slack standupBot recovered).2 0) "U2").
  { intros (e & He & Hnull). rewrite Hentry in He. injection He as <-.
    discriminate. }
  split; [reflexivity|]. split; [reflexivity|]. split; [exact Hentry|].
  split; [exact Hnot|]. intros [_ Hout]. exact (Hnot Hout).
Qed.

(** C3, amended: when the helpers answer, a post that brings no timestamp
    is not repeated and does not end the loop: the run returns, having
    gone through every member and sent [INIT_DONE]; each member was posted
    to at most once, and a member whose post recorded nothing keeps its
    fresh entry, with an empty init log and its answers not nulled. *)
Theorem initStandup_skips_undelivered gw BOT w :
  gatewayReturns gw ->
  NoDup (members BOT) ->
  let r := initStandup gw BOT w in
  r.1 = Return tt /\
  exists runs,
    trace r.2 = trace w ++ runTrace (Return tt) runs (Return tt) /\
    map fst runs = members BOT /\
    Forall (fun run =>
              length (posts run.2) <= 1 /\
              exists e,
                users (heap r.2 (conversationState BOT)) !! run.1 = Some e /\
                INIT (botMessages e) = recordedBy run.2 /\
                answers e = Some [] /\
                ~ optedOut (heap r.2 (conversationState BOT)) run.1) runs.
Proof.
  intros Hgw Hnd r. subst r.
  pose proof (initStandup_returns gw BOT w Hgw) as Hr.
  destruct (initStandup_members gw BOT w Hnd) as (c & runs & Htr & _ & Hret & Hruns).
  destruct (Hret Hr) as [-> Hall].
  split; [exact Hr|]. exists runs. rewrite Hr in Htr.
  split; [exact Htr|]. split; [exact Hall|].
  eapply Forall_impl; [exact Hruns|].
  intros run (e & o' & He & Hi & _).
  split; [exact (posts_length _ _ _ _ _ Hi)|].
  destruct (initiated_log _ _ _ _ _ Hi) as [Hlog Hans].
  exists e. repeat split; try assumption.
  intros (e' & He' & Hnull). congruence.
Qed.

Lemma initStandup_skips_undelivered_witness :
  gatewayReturns slack /\
  NoDup (members standupBot) /\
  (initStandup slack standupBot recovered).1 = Return tt /\
  exists runs,
    trace (initStandup slack standupBot recovered).2 =
      trace recovered ++ runTrace (Return tt) runs (Return tt) /\
    map fst runs = members standupBot.
Proof.
  assert (Hnd : NoDup (members standupBot)) by compute_done.
  split; [exact slack_returns|]. split; [exact Hnd|].
  destruct (initStandup_skips_undelivered slack standupBot recovered slack_returns Hnd)
    as (Hr & runs & Htr & Hall & _).
  split; [exact Hr|]. exists runs. split; [exact Htr | exact Hall].
Defined.

(** ** The standup list page *)

(** C10: [fetchStandups] never raises; when the query fails it logs the
    error and answers the empty list, and the page then renders with no
    entry. *)
Theorem fetchStandups_never_raises (query : Outcome (list Standup)) :
  (exists rows, (fetchStandups query).1 = Return rows) /\
  (forall e, query = Throw e ->
     fetchStandups query = (Return [], [ConsoleError e]) /\
     (StandupList query).1 =
       Return {| createLink := "/standups/create"; entries := [] |}) /\
  (forall rows, query = Return rows ->
     (fetchStandups query).1 = Return rows) /\
  exists page, (StandupList query).1 = Return page.
Proof.
  destruct query as [rows|e]; simpl.
  - split; [by exists rows|]. split; [discriminate|].
    split; [by intros ? [= <-]|]. by eexists.
  - split; [by exists []|]. split; [by intros ? [= <-]|].
    split; [discriminate|]. by eexists.
Qed.

Lemma fetchStandups_never_raises_witness :
  fetchStandups (Throw (Rejected "connection refused")) =
    (Return [], [ConsoleError (Rejected "connection refused")]) /\
  (StandupList (Throw (Rejected "connection refused"))).1 =
    Return {| createLink := "/standups/create"; entries := [] |}.
Proof.
  exact (proj1 (proj2 (fetchStandups_never_raises
                         (Throw (Rejected "connection refused"))))
               (Rejected "connection refused") eq_refl).
Defined.

(** * Further properties of the orchestrator *)

(** ** What [initStandup] leaves alone *)

(** X1: [initStandup] writes to the bot's state object only, and there only
    to the entries of the run's members: every other object of the store
    and every other entry of the users map is as it was, however the run
    ends. *)
Theorem initStandup_touches_members_only gw BOT w :
  let r := initStandup gw BOT w in
  (forall l, l <> conversationState BOT -> heap r.2 l = heap w l) /\
  (forall k, ~ In k (members BOT) ->
     users (heap r.2 (conversationState BOT)) !! k
       = users (heap w (conversationState BOT)) !! k).
Proof.
  intros r. subst r.
  destruct (initStandup_run gw BOT w)
    as (o & w' & c & runs & Hrun & _ & Hfr & Hshape).
  rewrite Hrun. simpl. split; [exact Hfr|].
  intros k Hk. destruct Hshape as [[_ Hall]|(err & _ & _ & _ & ->)]; [|reflexivity].
  eapply initiatedAll_unreached; [exact Hall|].
  intros Hin. apply Hk. by apply list_elem_of_In.
Qed.

Lemma initStandup_touches_members_only_witness :
  ~ In "U1" (members secondOnly) /\
  users (heap (initStandup slack secondOnly recovered).2 0) !! "U1"
    = users recoveredState !! "U1".
Proof.
  assert (Hout : ~ In "U1" (members secondOnly)).
  { intros [H|[]]. discriminate. }
  split; [exact Hout|].
  exact (proj2 (initStandup_touches_members_only slack secondOnly recovered) "U1" Hout).
Defined.

(** ** What [initStandup] forgets *)

Lemma initMember_agree gw BOT member w1 w2 :
  trace w1 = trace w2 ->
  exists o w1' w2' e,
    initMember gw BOT (conversationState BOT) member w1 = (o, w1') /\
    initMember gw BOT (conversationState BOT) member w2 = (o, w2') /\
    trace w1' = trace w2' /\
    users (heap w1' (conversationState BOT))
      = <[member := e]> (users (heap w1 (conversationState BOT))) /\
    users (heap w2' (conversationState BOT))
      = <[member := e]> (users (heap w2 (conversationState BOT))).
Proof.
  destruct w2 as [h2 t2]. simpl. intros <-.
  unfold initMember, addUserMeta, openConversation, postMessage, bind, mutate,
    await, deref, ret.
  simpl.
  destruct (gw_userMeta gw (trace w1) member) as [v|err]; simpl.
  2:{ eexists _, _, _, _. repeat split; heap_simpl; reflexivity. }
  destruct (gw_openConversation gw _ (token BOT) member) as [c|err]; simpl.
  2:{ eexists _, _, _, _. repeat split; heap_simpl; reflexivity. }
  destruct (truthy c) as [channel|]; simpl.
  2:{ eexists _, _, _, _. repeat split; heap_simpl; reflexivity. }
  rewrite !store_same, !firstInitTs_fresh. simpl.
  destruct (gw_postMessage gw _ (token BOT) channel _ _) as [p|err]; simpl.
  2:{ eexists _, _, _, _. repeat split; heap_simpl; reflexivity. }
  destruct (truthy (initMessageTs p)) as [t|]; simpl;
    eexists _, _, _, _; repeat split; heap_simpl; reflexivity.
Qed.

Lemma forOf_agree gw BOT ms : forall w1 w2,
  trace w1 = trace w2 ->
  exists o w1' w2',
    forOf ms (initMember gw BOT (conversationState BOT)) w1 = (o, w1') /\
    forOf ms (initMember gw BOT (conversationState BOT)) w2 = (o, w2') /\
    trace w1' = trace w2' /\
    (forall k,
       users (heap w1 (conversationState BOT)) !! k
         = users (heap w2 (conversationState BOT)) !! k ->
       users (heap w1' (conversationState BOT)) !! k
         = users (heap w2' (conversationState BOT)) !! k) /\
    (o = Return tt -> forall k, k ∈ ms ->
       users (heap w1' (conversationState BOT)) !! k
         = users (heap w2' (conversationState BOT)) !! k).
Proof.
  induction ms as [|member rest IH]; intros w1 w2 Htr; simpl.
  - exists (Return tt), w1, w2. repeat split; auto.
    intros _ k Hk. by apply elem_of_nil in Hk.
  - destruct (initMember_agree gw BOT member w1 w2 Htr)
      as (o & w1' & w2' & e & H1 & H2 & Htr' & Hu1 & Hu2).
    unfold bind. rewrite H1, H2.
    assert (Hstep : forall k,
      (users (heap w1 (conversationState BOT)) !! k
         = users (heap w2 (conversationState BOT)) !! k \/ k = member) ->
      users (heap w1' (conversationState BOT)) !! k
        = users (heap w2' (conversationState BOT)) !! k).
    { intros k Hk. rewrite Hu1, Hu2, !lookup_insert.
      case_decide; [reflexivity|]. destruct Hk as [Hk|Hk]; [exact Hk|congruence]. }
    destruct o as [[]|err].
    + destruct (IH w1' w2' Htr') as (o & w1'' & w2'' & H1' & H2' & Htr'' & Hkeep & Hmem).
      exists o, w1'', w2''. repeat split; try assumption.
      * intros k Hk. apply Hkeep, Hstep. by left.
      * intros Ho k Hk. destruct (decide (k ∈ rest)) as [Hin|Hin]; [by apply Hmem|].
        apply elem_of_cons in Hk as [->|Hk]; [|contradiction].
        apply Hkeep, Hstep. by right.
    + exists (Throw err), w1', w2'. repeat split; try assumption.
      * intros k Hk. apply Hstep. by left.
      * discriminate.
Qed.

(** X2: nothing of what the state held for the run's members survives
    [initStandup].  Started with the same history but different conversation
    states, two runs make the same calls and end alike, and when they
    return, every member has the same entry in both: previous answers,
    references and opt-outs are gone. *)
Theorem initStandup_forgets_prior_entries gw BOT w1 w2 :
  trace w1 = trace w2 ->
  let r1 := initStandup gw BOT w1 in
  let r2 := initStandup gw BOT w2 in
  r1.1 = r2.1 /\
  trace r1.2 = trace r2.2 /\
  (r1.1 = Return tt -> forall member, In member (members BOT) ->
     users (heap r1.2 (conversationState BOT)) !! member
       = users (heap r2.2 (conversationState BOT)) !! member).
Proof.
  intros Htr r1 r2. subst r1 r2.
  unfold initStandup, send, connect, bind, emit, await. simpl. rewrite <- Htr.
  destruct (gw_connect gw (trace w1 ++ [EvSend "INIT"])) as [[]|err]; simpl.
  2:{ split; [reflexivity|]. split; [reflexivity | discriminate]. }
  match goal with
  | |- context [forOf ?ms ?body ?wa] =>
      match goal with
      | |- context [forOf ms body ?wb] =>
          lazymatch wb with
          | wa => fail
          | _ => destruct (forOf_agree gw BOT ms wa wb eq_refl)
                   as (o & w1' & w2' & H1 & H2 & Htr' & _ & Hmem)
          end
      end
  end.
  rewrite H1, H2. destruct o as [[]|err]; simpl.
  - split; [reflexivity|]. split; [by rewrite Htr'|].
    intros _ member Hin. apply Hmem; [reflexivity | by apply list_elem_of_In].
  - split; [reflexivity|]. split; [exact Htr' | discriminate].
Qed.

Lemma initStandup_forgets_prior_entries_witness :
  trace recovered = trace firstRound /\
  users (heap recovered 0) !! "U1" <> users (heap firstRound 0) !! "U1" /\
  users (heap (initStandup slack standupBot recovered).2 0) !! "U1"
    = users (heap (initStandup slack standupBot firstRound).2 0) !! "U1".
Proof.
  split; [reflexivity|]. split; [vm_compute; discriminate|].
  exact (proj2 (proj2 (initStandup_forgets_prior_entries
                         slack standupBot recovered firstRound eq_refl))
               eq_refl "U1" (or_introl eq_refl)).
Defined.

(** ** The calls of a run *)

Lemma initiated_calls BOT member seg e o :
  initiated BOT member seg e o ->
  profiledMembers seg = [member] /\
  (openedMembers seg = [member] \/ (openedMembers seg = [] /\ o <> Return tt)) /\
  length (posts seg) <= length (openedMembers seg).
Proof.
  destruct 1; simpl; (split; [reflexivity|]); (split; [|lia]);
    first [by left | by right].
Qed.

Lemma initiatedAll_calls BOT ms u runs u' o :
  initiatedAll BOT ms u runs u' o ->
  profiledMembers (concat (map snd runs)) `prefix_of` ms /\
  openedMembers (concat (map snd runs)) `prefix_of` ms /\
  length (posts (concat (map snd runs)))
    <= length (openedMembers (concat (map snd runs))) /\
  (o = Return tt ->
     profiledMembers (concat (map snd runs)) = ms /\
     openedMembers (concat (map snd runs)) = ms).
Proof.
  induction 1 as [u|member rest u seg e err Hm
                 |member rest u seg e runs u' o Hm Hall (IHp & IHo & IHn & IHr)];
    simpl.
  - repeat split; auto using prefix_nil.
  - rewrite app_nil_r.
    destruct (initiated_calls _ _ _ _ _ Hm) as (-> & Hop & Hlen).
    split; [apply prefix_cons, prefix_nil|]. split; [|split; [exact Hlen|discriminate]].
    destruct Hop as [->|[-> _]]; [apply prefix_cons|]; apply prefix_nil.
  - destruct (initiated_calls _ _ _ _ _ Hm) as (Hpr & Hop & Hlen).
    destruct Hop as [Hop|[_ Hne]]; [|congruence].
    unfold profiledMembers, openedMembers, posts in *.
    rewrite !omap_app, List.filter_app, Hpr, Hop, !length_app. simpl.
    rewrite Hop in Hlen. simpl in Hlen.
    split; [by apply prefix_cons|]. split; [by apply prefix_cons|].
    split; [lia|]. intros Ho. destruct (IHr Ho) as [-> ->]. by split.
Qed.

(** X3: [initStandup] requests the profile and the conversation of the
    members in the order of [BOT.members], once per listing, and posts at
    most one prompt per conversation requested; a run that returns has
    gone through the whole list, so a member listed twice is initiated
    twice. *)
Theorem initStandup_calls_in_member_order gw BOT w :
  let r := initStandup gw BOT w in
  exists new,
    trace r.2 = trace w ++ new /\
    profiledMembers new `prefix_of` members BOT /\
    openedMembers new `prefix_of` members BOT /\
    length (posts new) <= length (openedMembers new) /\
    (r.1 = Return tt ->
       profiledMembers new = members BOT /\ openedMembers new = members BOT).
Proof.
  intros r. subst r.
  destruct (initStandup_run gw BOT w)
    as (o & w' & c & runs & Hrun & Htr & _ & Hshape).
  rewrite Hrun. simpl. exists (runTrace c runs o). split; [exact Htr|].
  assert (Htail : forall l : list Event,
            profiledMembers (l ++ match o with
                                  | Return _ => [EvSend "INIT_DONE"]
                                  | Throw _ => []
                                  end) = profiledMembers l /\
            openedMembers (l ++ match o with
                                | Return _ => [EvSend "INIT_DONE"]
                                | Throw _ => []
                                end) = openedMembers l /\
            posts (l ++ match o with
                        | Return _ => [EvSend "INIT_DONE"]
                        | Throw _ => []
                        end) = posts l).
  { intros l. unfold profiledMembers, openedMembers, posts.
    rewrite !omap_app, List.filter_app.
    destruct o; simpl; by rewrite !app_nil_r. }
  unfold runTrace.
  change (profiledMembers (EvSend "INIT" :: EvConnect c :: ?l))
    with (profiledMembers l).
  change (openedMembers (EvSend "INIT" :: EvConnect c :: ?l))
    with (openedMembers l).
  change (posts (EvSend "INIT" :: EvConnect c :: ?l)) with (posts l).
  destruct (Htail (concat (map snd runs))) as (-> & -> & ->).
  destruct Hshape as [[_ Hall]|(err & _ & -> & -> & _)].
  - exact (initiatedAll_calls _ _ _ _ _ _ Hall).
  - simpl. repeat split; auto using prefix_nil; discriminate.
Qed.

Lemma initStandup_calls_in_member_order_witness :
  (initStandup slack standupBot recovered).1 = Return tt /\
  exists new,
    trace (initStandup slack standupBot recovered).2 = trace recovered ++ new /\
    profiledMembers new = ["U1"; "U2"] /\ openedMembers new = ["U1"; "U2"].
Proof.
  split; [reflexivity|].
  destruct (initStandup_calls_in_member_order slack standupBot recovered)
    as (new & Htr & _ & _ & _ & Hret).
  exists new. split; [exact Htr | exact (Hret eq_refl)].
Defined.

(** ** Rejected calls *)

Lemma initiated_rejection BOT member seg e o :
  initiated BOT member seg e o ->
  match o with
  | Return _ => Forall (fun ev => rejection ev = None) seg
  | Throw err =>
      exists pre ev, seg = pre ++ [ev] /\ rejection ev = Some err /\
                     Forall (fun ev => rejection ev = None) pre
  end.
Proof.
  destruct 1 as [err|v err|v c Hc|v c channel err Hc|v c channel p Hc Ht
                |v c channel p t Hc Ht].
  - exists [], (EvAddUserMeta member (Throw err)). repeat constructor.
  - exists [EvAddUserMeta member (Return v)],
           (EvOpenConversation (token BOT) member (Throw err)).
    repeat constructor.
  - repeat constructor.
  - exists [EvAddUserMeta member (Return v);
            EvOpenConversation (token BOT) member (Return c)],
           (EvPostMessage (token BOT) channel initText (initBlocks BOT) (Throw err)).
    repeat constructor.
  - repeat constructor.
  - repeat constructor.
Qed.

Lemma initiatedAll_rejection BOT ms u runs u' o :
  initiatedAll BOT ms u runs u' o ->
  match o with
  | Return _ => Forall (fun ev => rejection ev = None) (concat (map snd runs))
  | Throw err =>
      exists pre ev, concat (map snd runs) = pre ++ [ev] /\
                     rejection ev = Some err /\
                     Forall (fun ev => rejection ev = None) pre
  end.
Proof.
  induction 1 as [u|member rest u seg e err Hm
                 |member rest u seg e runs u' o Hm Hall IH]; simpl.
  - constructor.
  - rewrite app_nil_r. exact (initiated_rejection _ _ _ _ _ Hm).
  - pose proof (initiated_rejection _ _ _ _ _ Hm) as Hseg. simpl in Hseg.
    destruct o as [[]|err].
    + by apply Forall_app.
    + destruct IH as (pre & ev & -> & Hev & Hpre).
      exists (seg ++ pre), ev. rewrite app_assoc. split; [reflexivity|].
      split; [exact Hev|]. by apply Forall_app.
Qed.

(** X4: [initStandup] catches nothing.  It is rejected exactly when one of
    its calls is, with that call's error; the rejected call is the last one
    made, and [INIT_DONE] is not sent.  When the run returns, no call was
    rejected. *)
Theorem initStandup_stops_at_rejection gw BOT w :
  let r := initStandup gw BOT w in
  exists new,
    trace r.2 = trace w ++ new /\
    match r.1 with
    | Return _ => Forall (fun ev => rejection ev = None) new
    | Throw err =>
        exists pre ev,
          new = pre ++ [ev] /\ rejection ev = Some err /\
          Forall (fun ev => rejection ev = None) pre /\
          ~ In (EvSend "INIT_DONE") new
    end.
Proof.
  intros r. subst r.
  destruct (initStandup_run gw BOT w)
    as (o & w' & c & runs & Hrun & Htr & _ & Hshape).
  rewrite Hrun. simpl. exists (runTrace c runs o). split; [exact Htr|].
  unfold runTrace.
  destruct Hshape as [[-> Hall]|(err & -> & -> & -> & _)].
  - pose proof (initiatedAll_rejection _ _ _ _ _ _ Hall) as Hrej.
    assert (Hsend : Forall (fun ev => isSend ev = false) (concat (map snd runs))).
    { eapply Forall_segments; [exact (initiatedAll_segments _ _ _ _ _ _ Hall)|].
      intros run (e & o' & Hi). exact (initiated_no_send _ _ _ _ _ Hi). }
    destruct o as [[]|err].
    + repeat constructor. apply Forall_app. split; [exact Hrej|repeat constructor].
    + destruct Hrej as (pre & ev & Hcat & Hev & Hpre).
      exists (EvSend "INIT" :: EvConnect (Return tt) :: pre), ev.
      rewrite app_nil_r, Hcat. split; [reflexivity|]. split; [exact Hev|].
      split; [by repeat constructor|].
      rewrite <- Hcat. intros [Hin|[Hin|Hin]]; try discriminate.
      rewrite Forall_forall in Hsend.
      apply list_elem_of_In, Hsend in Hin. discriminate.
  - exists [EvSend "INIT"], (EvConnect (Throw err)). simpl.
    split; [reflexivity|]. split; [reflexivity|]. split; [repeat constructor|].
    intros [Hin|[Hin|[]]]; discriminate.
Qed.

Lemma initStandup_stops_at_rejection_witness :
  (initStandup slackWithoutU2 standupBot recovered).1
    = Throw (Rejected "user_not_found") /\
  exists new pre ev,
    trace (initStandup slackWithoutU2 standupBot recovered).2 = trace recovered ++ new /\
    new = pre ++ [ev] /\ rejection ev = Some (Rejected "user_not_found") /\
    ~ In (EvSend "INIT_DONE") new.
Proof.
  split; [reflexivity|].
  destruct (initStandup_stops_at_rejection slackWithoutU2 standupBot recovered)
    as (new & Htr & Hrej).
  change ((initStandup slackWithoutU2 standupBot recovered).1)
    with (@Throw unit (Rejected "user_not_found")) in Hrej.
  destruct Hrej as (pre & ev & Hnew & Hev & _ & Hdone).
  exists new, pre, ev. repeat split; assumption.
Defined.

(** ** Edge cases of the click handlers *)

(** X5: a "not working" click by somebody who has no entry in the users
    map is handled up to the assignment: the clicked message has already
    been handed to [notWorking].  Then, unless the user id is the name of
    a property every object inherits, the handler is rejected with a
    [TypeError] and [NOT_WORKING] is not sent; for such a name the
    assignment lands on the inherited object, nothing is thrown and
    [NOT_WORKING] is sent.  Either way the store is untouched. *)
Theorem notWorkingClickHandler_unknown_member gw BOT body w channel t uid :
  clickOn body channel t uid ->
  users (heap w (conversationState BOT)) !! propertyKey uid = None ->
  gw_ack gw (trace w) = Return tt ->
  gw_notWorking gw (trace w ++ [EvAck (Return tt)]) (token BOT) channel t = Return tt ->
  notWorkingClickHandler gw BOT body w =
    if inheritedProperty (propertyKey uid)
    then (Return tt,
          {| heap := heap w;
             trace := trace w ++ [EvAck (Return tt);
                                  EvNotWorking (token BOT) channel t (Return tt);
                                  EvSend "NOT_WORKING"] |})
    else (Throw TypeError,
          {| heap := heap w;
             trace := trace w ++ [EvAck (Return tt);
                                  EvNotWorking (token BOT) channel t (Return tt)] |}).
Proof.
  intros (Hch & (v & Hts & Hv) & Huid) He Hack Hnw. run_handler.
  rewrite Hack, Hts, Hch, Hv. simpl. rewrite Hnw, Huid. simpl. rewrite He.
  destruct (inheritedProperty (propertyKey uid)); simpl; by rewrite <- !app_assoc.
Qed.

Lemma notWorkingClickHandler_unknown_member_witness :
  clickOn strangerClick "D-U9" "300" (Some "U9") /\
  clickOn constructorClick "D-U9" "300" (Some "constructor") /\
  users (heap recovered 0) !! "U9" = None /\
  users (heap recovered 0) !! "constructor" = None /\
  (notWorkingClickHandler slack standupBot strangerClick recovered).1 = Throw TypeError /\
  notWorkingClickHandler slack standupBot constructorClick recovered =
    (Return tt,
     {| heap := heap recovered;
        trace := [EvAck (Return tt); EvNotWorking "xoxb" "D-U9" "300" (Return tt);
                  EvSend "NOT_WORKING"] |}).
Proof.
  assert (Hclick : clickOn strangerClick "D-U9" "300" (Some "U9")).
  { split; [reflexivity|]. split; [|reflexivity].
    exists (Some "300"). split; reflexivity. }
  assert (Hclick' : clickOn constructorClick "D-U9" "300" (Some "constructor")).
  { split; [reflexivity|]. split; [|reflexivity].
    exists (Some "300"). split; reflexivity. }
  split; [exact Hclick|]. split; [exact Hclick'|].
  split; [reflexivity|]. split; [reflexivity|]. split.
  - exact (f_equal fst
             (notWorkingClickHandler_unknown_member slack standupBot strangerClick
                recovered "D-U9" "300" (Some "U9") Hclick eq_refl eq_refl eq_refl)).
  - exact (notWorkingClickHandler_unknown_member slack standupBot constructorClick
             recovered "D-U9" "300" (Some "constructor") Hclick' eq_refl eq_refl eq_refl).
Defined.

(** X6: a payload without [message] (or no payload at all) makes both
    handlers fail with a [TypeError] right after the acknowledgment: no
    helper is called and the store is untouched. *)
Theorem click_handlers_need_message gw BOT body w :
  body_message_ts body = Throw TypeError ->
  gw_ack gw (trace w) = Return tt ->
  notWorkingClickHandler gw BOT body w =
    (Throw TypeError, {| heap := heap w; trace := trace w ++ [EvAck (Return tt)] |}) /\
  startStandupClickHandler gw BOT body w =
    (Throw TypeError, {| heap := heap w; trace := trace w ++ [EvAck (Return tt)] |}).
Proof.
  intros Hts Hack. run_handler. rewrite Hack, Hts. by split.
Qed.

Lemma click_handlers_need_message_witness :
  body_message_ts bareClick = Throw TypeError /\
  body_message_ts None = Throw TypeError /\
  (notWorkingClickHandler slack standupBot bareClick recovered).1 = Throw TypeError /\
  (startStandupClickHandler slack standupBot None recovered).1 = Throw TypeError.
Proof.
  split; [reflexivity|]. split; [reflexivity|]. split.
  - exact (f_equal fst (proj1 (click_handlers_need_message slack standupBot bareClick
                                 recovered eq_refl eq_refl))).
  - exact (f_equal fst (proj2 (click_handlers_need_message slack standupBot None
                                 recovered eq_refl eq_refl))).
Defined.

(** X7: when the acknowledgment itself is rejected, both handlers are
    rejected with its error and do nothing else. *)
Theorem click_handlers_stop_at_ack gw BOT body w err :
  gw_ack gw (trace w) = Throw err ->
  notWorkingClickHandler gw BOT body w =
    (Throw err, {| heap := heap w; trace := trace w ++ [EvAck (Throw err)] |}) /\
  startStandupClickHandler gw BOT body w =
    (Throw err, {| heap := heap w; trace := trace w ++ [EvAck (Throw err)] |}).
Proof.
  intros Hack. run_handler. rewrite Hack. by split.
Qed.

Lemma click_handlers_stop_at_ack_witness :
  gw_ack slackLateAck (trace recovered) = Throw (Rejected "expired_trigger_id") /\
  notWorkingClickHandler slackLateAck standupBot liveClick recovered =
    (Throw (Rejected "expired_trigger_id"),
     {| heap := heap recovered;
        trace := [EvAck (Throw (Rejected "expired_trigger_id"))] |}).
Proof.
  split; [reflexivity|].
  exact (proj1 (click_handlers_stop_at_ack slackLateAck standupBot liveClick recovered
                  (Rejected "expired_trigger_id") eq_refl)).
Defined.

(** X8: when [notWorking] is rejected, the handler is rejected with its
    error before it touches the member: the answers stay as they were and
    [NOT_WORKING] is not sent. *)
Theorem notWorkingClickHandler_stops_at_notWorking gw BOT body w channel t uid err :
  clickOn body channel t uid ->
  gw_ack gw (trace w) = Return tt ->
  gw_notWorking gw (trace w ++ [EvAck (Return tt)]) (token BOT) channel t = Throw err ->
  notWorkingClickHandler gw BOT body w =
    (Throw err,
     {| heap := heap w;
        trace := trace w ++ [EvAck (Return tt);
                             EvNotWorking (token BOT) channel t (Throw err)] |}).
Proof.
  intros (Hch & (v & Hts & Hv) & Huid) Hack Hnw. run_handler.
  rewrite Hack, Hts, Hch, Hv. simpl. rewrite Hnw. simpl.
  by rewrite <- !app_assoc.
Qed.

Lemma notWorkingClickHandler_stops_at_notWorking_witness :
  clickOn liveClick "D-U1" "100" (Some "U1") /\
  notWorkingClickHandler slackWithoutU2 standupBot liveClick recovered =
    (Throw (Rejected "message_not_found"),
     {| heap := heap recovered;
        trace := [EvAck (Return tt);
                  EvNotWorking "xoxb" "D-U1" "100"
                    (Throw (Rejected "message_not_found"))] |}).
Proof.
  assert (Hclick : clickOn liveClick "D-U1" "100" (Some "U1")).
  { split; [reflexivity|]. split; [|reflexivity].
    exists (Some "100"). split; reflexivity. }
  split; [exact Hclick|].
  exact (notWorkingClickHandler_stops_at_notWorking slackWithoutU2 standupBot liveClick
           recovered "D-U1" "100" (Some "U1") (Rejected "message_not_found")
           Hclick eq_refl eq_refl).
Defined.

(** X9: a payload without [user]: the start handler is rejected before
    [startStandup] is called, the not-working handler only after
    [notWorking] has been called on the clicked message; neither touches
    the store. *)
Theorem click_handlers_need_user gw BOT body w channel t v :
  truthy (body_channel_id body) = Some channel ->
  body_message_ts body = Return v -> truthy v = Some t ->
  body_user_id body = Throw TypeError ->
  gw_ack gw (trace w) = Return tt ->
  gw_notWorking gw (trace w ++ [EvAck (Return tt)]) (token BOT) channel t = Return tt ->
  startStandupClickHandler gw BOT body w =
    (Throw TypeError, {| heap := heap w; trace := trace w ++ [EvAck (Return tt)] |}) /\
  notWorkingClickHandler gw BOT body w =
    (Throw TypeError,
     {| heap := heap w;
        trace := trace w ++ [EvAck (Return tt);
                             EvNotWorking (token BOT) channel t (Return tt)] |}).
Proof.
  intros Hch Hts Hv Huid Hack Hnw. run_handler.
  rewrite Hack, Hts, Hch, Hv. simpl. rewrite Hnw, Huid. simpl.
  by rewrite <- !app_assoc.
Qed.

Lemma click_handlers_need_user_witness :
  body_user_id anonymousClick = Throw TypeError /\
  (startStandupClickHandler slack standupBot anonymousClick recovered).2 =
    {| heap := heap recovered; trace := [EvAck (Return tt)] |} /\
  (notWorkingClickHandler slack standupBot anonymousClick recovered).2 =
    {| heap := heap recovered;
       trace := [EvAck (Return tt); EvNotWorking "xoxb" "D-U1" "100" (Return tt)] |}.
Proof.
  split; [reflexivity|].
  destruct (click_handlers_need_user slack standupBot anonymousClick recovered
              "D-U1" "100" (Some "100") eq_refl eq_refl eq_refl eq_refl eq_refl eq_refl)
    as [Hss Hnw].
  split; [exact (f_equal snd Hss) | exact (f_equal snd Hnw)].
Defined.

(** ** What the not-working handler keeps *)

(** Every way through the handler: the whole path of a well-formed click
    by a known member; the same path for a user id that only names an
    inherited property, which leaves the store alone; or the store is left
    alone and nothing is sent. *)
Lemma notWorkingClickHandler_cases gw BOT body w :
  (exists channel t uid e,
     clickOn body channel t uid /\
     users (heap w (conversationState BOT)) !! propertyKey uid = Some e /\
     notWorkingClickHandler gw BOT body w =
       (Return tt,
        {| heap := store (conversationState BOT)
                     (alterUser setAnswersNull (propertyKey uid)
                        (heap w (conversationState BOT)))
                     (heap w);
           trace := trace w ++ [EvAck (Return tt);
                                EvNotWorking (token BOT) channel t (Return tt);
                                EvSend "NOT_WORKING"] |}))
  \/ (exists channel t uid,
        clickOn body channel t uid /\
        users (heap w (conversationState BOT)) !! propertyKey uid = None /\
        inheritedProperty (propertyKey uid) = true /\
        notWorkingClickHandler gw BOT body w =
          (Return tt,
           {| heap := heap w;
              trace := trace w ++ [EvAck (Return tt);
                                   EvNotWorking (token BOT) channel t (Return tt);
                                   EvSend "NOT_WORKING"] |}))
  \/ (heap (notWorkingClickHandler gw BOT body w).2 = heap w /\
      (exists rest,
         trace (notWorkingClickHandler gw BOT body w).2 = trace w ++ rest /\
         ~ In (EvSend "NOT_WORKING") rest) /\
      ((notWorkingClickHandler gw BOT body w).1 = Return tt -> malformed body)).
Proof.
  unfold malformed, clickOn. run_handler.
  destruct (gw_ack gw (trace w)) as [[]|]; simpl.
  2:{ right. right. split; [reflexivity|]. split; [|discriminate].
      eexists. split; [reflexivity|]. intros [H|[]]. discriminate. }
  destruct (body_message_ts body) as [v|]; simpl.
  2:{ right. right. split; [reflexivity|]. split; [|discriminate].
      eexists. split; [reflexivity|]. intros [H|[]]. discriminate. }
  destruct (truthy (body_channel_id body)) as [channel|]; simpl.
  2:{ right. right. split; [reflexivity|]. split; [|by left].
      eexists. split; [reflexivity|]. intros [H|[]]. discriminate. }
  destruct (truthy v) as [t|] eqn:Hv; simpl.
  2:{ right. right. split; [reflexivity|]. split; [|by right].
      eexists. split; [reflexivity|]. intros [H|[]]. discriminate. }
  destruct (gw_notWorking gw _ (token BOT) channel t) as [[]|]; simpl.
  2:{ right. right. split; [reflexivity|]. split; [|discriminate].
      eexists. split; [by rewrite <- app_assoc|]. intros [H|[H|[]]]; discriminate. }
  destruct (body_user_id body) as [uid|]; simpl.
  2:{ right. right. split; [reflexivity|]. split; [|discriminate].
      eexists. split; [by rewrite <- app_assoc|]. intros [H|[H|[]]]; discriminate. }
  destruct (users (heap w (conversationState BOT)) !! propertyKey uid)
    as [e|] eqn:He; simpl.
  - left. exists channel, t, uid, e. split; [by eauto|]. split; [exact He|].
    by rewrite <- !app_assoc.
  - destruct (inheritedProperty (propertyKey uid)) eqn:Hinh; simpl.
    + right. left. exists channel, t, uid. split; [by eauto|].
      split; [exact He|]. split; [exact Hinh|]. by rewrite <- !app_assoc.
    + right. right. split; [reflexivity|]. split; [|discriminate].
      eexists. split; [by rewrite <- app_assoc|].
      intros [H|[H|[]]]; discriminate.
Qed.

Lemma clickOn_not_malformed body channel t uid :
  clickOn body channel t uid -> ~ malformed body.
Proof.
  intros (Hch & (v & Hts & Hv) & _) [Hm|Hm]; [congruence|].
  rewrite Hts in Hm. congruence.
Qed.

Lemma setAnswersNull_twice e : setAnswersNull (setAnswersNull e) = setAnswersNull e.
Proof. reflexivity. Qed.

(** X10: handling the same "not working" payload again changes nothing
    more: after a first handling that returned, a second one leaves every
    object of the store as the first left it. *)
Theorem notWorkingClickHandler_idempotent gw BOT body w :
  let r1 := notWorkingClickHandler gw BOT body w in
  let r2 := notWorkingClickHandler gw BOT body r1.2 in
  r1.1 = Return tt ->
  forall l, heap r2.2 l = heap r1.2 l.
Proof.
  intros r1 r2 Hret l. subst r1 r2.
  destruct (notWorkingClickHandler_cases gw BOT body
              (notWorkingClickHandler gw BOT body w).2)
    as [(channel' & t' & uid' & e' & Hclick' & He' & ->)
       |[(channel' & t' & uid' & _ & _ & _ & ->)|(-> & _)]];
    [|reflexivity|reflexivity].
  simpl.
  destruct (notWorkingClickHandler_cases gw BOT body w)
    as [(channel & t & uid & e & Hclick & He & Hrun)
       |[(channel & t & uid & Hclick & He & _ & Hrun)|(_ & _ & Hmal)]].
  - rewrite Hrun. simpl.
    destruct Hclick as (_ & _ & Huid), Hclick' as (_ & _ & Huid').
    rewrite Huid in Huid'. injection Huid' as <-.
    destruct (Nat.eq_dec l (conversationState BOT)) as [->|Hl].
    + rewrite !store_same. unfold alterUser. simpl. f_equal.
      rewrite alter_alter_eq. apply alter_ext. intros; apply setAnswersNull_twice.
    + by rewrite !store_other.
  - exfalso. rewrite Hrun in He'. simpl in He'.
    destruct Hclick as (_ & _ & Huid), Hclick' as (_ & _ & Huid').
    rewrite Huid in Huid'. injection Huid' as <-. congruence.
  - exfalso. exact (clickOn_not_malformed _ _ _ _ Hclick' (Hmal Hret)).
Qed.

Lemma notWorkingClickHandler_idempotent_witness :
  (notWorkingClickHandler slack standupBot liveClick recovered).1 = Return tt /\
  heap (notWorkingClickHandler slack standupBot liveClick
          (notWorkingClickHandler slack standupBot liveClick recovered).2).2 0
    = heap (notWorkingClickHandler slack standupBot liveClick recovered).2 0.
Proof.
  split; [reflexivity|].
  exact (notWorkingClickHandler_idempotent slack standupBot liveClick recovered
           eq_refl 0).
Defined.

(** X11: the handler never touches a message log or a profile, never adds
    or removes an entry, and leaves every entry but the acting member's as
    it was; other objects of the store are untouched. *)
Theorem notWorkingClickHandler_keeps_references gw BOT body w :
  let r := notWorkingClickHandler gw BOT body w in
  let before := users (heap w (conversationState BOT)) in
  let after := users (heap r.2 (conversationState BOT)) in
  (forall l, l <> conversationState BOT -> heap r.2 l = heap w l) /\
  forall k,
    botMessages <$> after !! k = botMessages <$> before !! k /\
    meta <$> after !! k = meta <$> before !! k /\
    (after !! k = before !! k \/
     exists uid, body_user_id body = Return uid /\ k = propertyKey uid).
Proof.
  intros r before after. subst r before after.
  destruct (notWorkingClickHandler_store gw BOT body w)
    as [->|(uid & e & Huid & He & ->)].
  - split; [reflexivity|]. intros k. repeat split. by left.
  - split; [by intros l Hl; rewrite store_other|].
    intros k. rewrite store_same. unfold alterUser. simpl.
    rewrite lookup_alter. case_decide as Hk.
    + subst k. rewrite He. simpl. repeat split. right. by exists uid.
    + repeat split. by left.
Qed.

Lemma notWorkingClickHandler_keeps_references_witness :
  botMessages <$>
    users (heap (notWorkingClickHandler slack standupBot liveClick recovered).2 0) !! "U1"
  = Some {| INIT := [ {| ts := "100" |} ] |}.
Proof.
  exact (proj1 (proj2 (notWorkingClickHandler_keeps_references
                         slack standupBot liveClick recovered) "U1")).
Defined.

(** X12: the store changes only together with [NOT_WORKING].  When
    [NOT_WORKING] is sent, the handler returns; the acting member is then
    opted out if it has an entry, and otherwise its id names an inherited
    property and the store is as before.  When it is not sent, the store is
    exactly as before. *)
Theorem notWorkingClickHandler_sends_iff_opted_out gw BOT body w :
  let r := notWorkingClickHandler gw BOT body w in
  let l := conversationState BOT in
  exists rest,
    trace r.2 = trace w ++ rest /\
    ((In (EvSend "NOT_WORKING") rest /\ r.1 = Return tt /\
      exists uid,
        body_user_id body = Return uid /\
        ((is_Some (users (heap w l) !! propertyKey uid) /\
          optedOut (heap r.2 l) (propertyKey uid))
         \/ (users (heap w l) !! propertyKey uid = None /\
             inheritedProperty (propertyKey uid) = true /\
             heap r.2 = heap w)))
     \/ (~ In (EvSend "NOT_WORKING") rest /\ heap r.2 = heap w)).
Proof.
  intros r l. subst r l.
  destruct (notWorkingClickHandler_cases gw BOT body w)
    as [(channel & t & uid & e & Hclick & He & ->)
       |[(channel & t & uid & Hclick & He & Hinh & ->)
        |(Hheap & (rest & Htr & Hnot) & _)]].
  - eexists. simpl. split; [reflexivity|]. left.
    split; [right; right; by left|]. split; [reflexivity|].
    exists uid. split; [apply Hclick|]. left. split; [by eexists|].
    exists (setAnswersNull e). rewrite store_same. unfold alterUser. simpl.
    rewrite lookup_alter_eq, He. by split.
  - eexists. simpl. split; [reflexivity|]. left.
    split; [right; right; by left|]. split; [reflexivity|].
    exists uid. split; [apply Hclick|]. right. by split.
  - exists rest. split; [exact Htr|]. right. by split.
Qed.

Lemma notWorkingClickHandler_sends_iff_opted_out_witness :
  exists rest,
    trace (notWorkingClickHandler slack standupBot constructorClick recovered).2 =
      trace recovered ++ rest /\
    In (EvSend "NOT_WORKING") rest /\
    heap (notWorkingClickHandler slack standupBot constructorClick recovered).2 =
      heap recovered.
Proof.
  destruct (notWorkingClickHandler_sends_iff_opted_out slack standupBot
              constructorClick recovered)
    as (rest & Htr & [(Hsent & _ & uid & Huid & [[[e He] _]|(_ & _ & Hheap)])
                     |(Hnot & _)]).
  - exfalso. injection Huid as <-. discriminate He.
  - exists rest. by split.
  - exfalso. apply Hnot.
    apply (app_inv_head (trace recovered)) in Htr. rewrite <- Htr.
    right. right. by left.
Defined.

(** ** The start handler *)

(** X13: the start handler is the acknowledgment followed by
    [startStandup] on the clicked channel, the clicked message and the
    acting user's id, whatever they are; it never sends an event to the
    state machine itself. *)
Theorem startStandupClickHandler_forwards gw BOT body w :
  (forall channel t uid,
     clickOn body channel t uid ->
     gw_ack gw (trace w) = Return tt ->
     startStandupClickHandler gw BOT body w =
       startStandup gw BOT channel t uid
         {| heap := heap w; trace := trace w ++ [EvAck (Return tt)] |}) /\
  exists rest,
    trace (startStandupClickHandler gw BOT body w).2 = trace w ++ rest /\
    Forall (fun ev => isSend ev = false) rest.
Proof.
  split.
  - intros channel t uid (Hch & (v & Hts & Hv) & Huid) Hack. run_handler.
    by rewrite Hack, Hts, Hch, Hv, Huid.
  - run_handler.
    destruct (gw_ack gw (trace w)) as [[]|]; simpl;
      [|eexists; split; [reflexivity | repeat constructor]].
    destruct (body_message_ts body) as [v|]; simpl;
      [|eexists; split; [reflexivity | repeat constructor]].
    destruct (truthy (body_channel_id body)) as [channel|]; simpl;
      [|eexists; split; [reflexivity | repeat constructor]].
    destruct (truthy v) as [t|]; simpl;
      [|eexists; split; [reflexivity | repeat constructor]].
    destruct (body_user_id body) as [uid|]; simpl;
      [|eexists; split; [reflexivity | repeat constructor]].
    destruct (gw_startStandup gw _ channel t uid _); simpl;
      (eexists; split; [by rewrite <- app_assoc | repeat constructor]).
Qed.

Lemma startStandupClickHandler_forwards_witness :
  clickOn liveClick "D-U1" "100" (Some "U1") /\
  trace (startStandupClickHandler slack standupBot liveClick recovered).2 =
    [EvAck (Return tt); EvStartStandup "D-U1" "100" (Some "U1") (Return tt)].
Proof.
  assert (Hclick : clickOn liveClick "D-U1" "100" (Some "U1")).
  { split; [reflexivity|]. split; [|reflexivity].
    exists (Some "100"). split; reflexivity. }
  split; [exact Hclick|].
  rewrite (proj1 (startStandupClickHandler_forwards slack standupBot liveClick recovered)
             "D-U1" "100" (Some "U1") Hclick eq_refl).
  reflexivity.
Defined.

(** * The create-standup form *)

(** ** Fetching channels and users *)

(** X14: [getChannels] makes exactly one GET request, also without an id
    (the query then reads [slackId=undefined]), and yields a list only
    from a response that is [ok] and whose body parses to an object, namely
    its [channels] property; in every other case it is rejected. *)
Theorem getChannels_only_from_ok_response net id data :
  let request := CreateForm.Get ("/api/p/slack/channels?slackId=" +:+
                                 CreateForm.interpolate id) in
  (CreateForm.getChannels net id).2 = [request] /\
  ((CreateForm.getChannels net id).1 = Return data <->
   exists res payload,
     net request = Return res /\ CreateForm.ok res = true /\
     CreateForm.json res = Return (Some payload) /\
     CreateForm.channels payload = data).
Proof.
  intros request. subst request. unfold CreateForm.getChannels.
  destruct (net _) as [res|e]; simpl.
  2:{ split; [reflexivity|]. split; [discriminate|].
      intros (res & payload & H & _). discriminate. }
  destruct res as [[] [[payload|]|e]]; simpl; (split; [reflexivity|]);
    (split; [try discriminate | intros (res & p & [= <-] & Hok & Hjson & Hdata);
                                simpl in *; congruence]).
  intros [= <-]. by eexists _, _.
Qed.

(** X15: [getUsers] makes exactly one GET request carrying both ids as
    they are, and yields a list only from a response that is [ok] and whose
    body parses to an object, namely its [users] property. *)
Theorem getUsers_only_from_ok_response net id channelId data :
  let request :=
    CreateForm.Get ("/api/p/slack/users-by-channel?slackId=" +:+
                    CreateForm.interpolate id +:+ "&channelId=" +:+
                    CreateForm.interpolate channelId) in
  (CreateForm.getUsers net id channelId).2 = [request] /\
  ((CreateForm.getUsers net id channelId).1 = Return data <->
   exists res payload,
     net request = Return res /\ CreateForm.ok res = true /\
     CreateForm.json res = Return (Some payload) /\
     CreateForm.users payload = data).
Proof.
  intros request. subst request. unfold CreateForm.getUsers.
  destruct (net _) as [res|e]; simpl.
  2:{ split; [reflexivity|]. split; [discriminate|].
      intros (res & payload & H & _). discriminate. }
  destruct res as [[] [[payload|]|e]]; simpl; (split; [reflexivity|]);
    (split; [try discriminate | intros (res & p & [= <-] & Hok & Hjson & Hdata);
                                simpl in *; congruence]).
  intros [= <-]. by eexists _, _.
Qed.

(** ** The effects *)

Lemma getChannels_one_request net id : length (CreateForm.getChannels net id).2 = 1.
Proof.
  unfold CreateForm.getChannels. destruct (net _) as [[[] [[?|]|?]]|?]; reflexivity.
Qed.

Lemma getUsers_one_request net id channelId :
  length (CreateForm.getUsers net id channelId).2 = 1.
Proof.
  unfold CreateForm.getUsers. destruct (net _) as [[[] [[?|]|?]]|?]; reflexivity.
Qed.

(** X16: without a signed-in user the channels effect does nothing at all.
    With one, it ends either in one [setChannels] call or in one unhandled
    rejection, never both, after at most one request; the channels are set
    exactly when the user has an external account and [getChannels], asked
    for that account's id, yields a list. *)
Theorem channelsEffect_sets_or_fails net user :
  let eff := CreateForm.channelsEffect net user in
  (user = None -> eff = CreateForm.noEffect) /\
  (user <> None ->
     length (CreateForm.updates eff) + length (CreateForm.unhandled eff) = 1) /\
  length (CreateForm.requests eff) <= 1 /\
  (forall data,
     CreateForm.updates eff = [CreateForm.SetChannels data] <->
     exists u id,
       user = Some u /\ CreateForm.firstProviderUserId u = Return id /\
       (CreateForm.getChannels net (Some id)).1 = Return data).
Proof.
  intros eff. subst eff. unfold CreateForm.channelsEffect.
  destruct user as [u|]; simpl.
  2:{ split; [reflexivity|]. split; [congruence|]. split; [lia|].
      intros data. split; [discriminate|]. intros (u & id & H & _). discriminate. }
  split; [discriminate|].
  destruct (CreateForm.firstProviderUserId u) as [id|e] eqn:Hid; simpl.
  2:{ split; [reflexivity|]. split; [lia|]. intros data.
      split; [discriminate|]. intros (u' & id & [= <-] & H & _). congruence. }
  pose proof (getChannels_one_request net (Some id)) as Hone.
  destruct (CreateForm.getChannels net (Some id)) as [[data'|e] reqs] eqn:Hget;
    simpl in *.
  - split; [reflexivity|]. split; [lia|]. intros data. split.
    + intros [= <-]. exists u, id. by rewrite Hget.
    + intros (u' & id' & [= <-] & H & Hdata).
      rewrite Hid in H. injection H as <-. rewrite Hget in Hdata. simpl in Hdata.
      by injection Hdata as <-.
  - split; [reflexivity|]. split; [lia|]. intros data. split; [discriminate|].
    intros (u' & id' & [= <-] & H & Hdata).
    rewrite Hid in H. injection H as <-. rewrite Hget in Hdata. discriminate.
Qed.

Lemma channelsEffect_sets_or_fails_witness :
  Some CreateForm.admin <> None /\
  CreateForm.channelsEffect CreateForm.offline None = CreateForm.noEffect /\
  length (CreateForm.updates
            (CreateForm.channelsEffect CreateForm.offline (Some CreateForm.admin))) +
  length (CreateForm.unhandled
            (CreateForm.channelsEffect CreateForm.offline (Some CreateForm.admin))) = 1.
Proof.
  assert (Hsome : Some CreateForm.admin <> None) by discriminate.
  split; [exact Hsome|]. split.
  - exact (proj1 (channelsEffect_sets_or_fails CreateForm.offline None) eq_refl).
  - exact (proj1 (proj2 (channelsEffect_sets_or_fails CreateForm.offline
                           (Some CreateForm.admin))) Hsome).
Defined.

(** X17: the users effect makes no request and sets nothing as long as no
    user is signed in or no channel is selected, the placeholder option
    (the empty string) included; otherwise it asks for the users of exactly
    the selected channel, and sets the users only from what [getUsers]
    yields. *)
Theorem usersEffect_waits_for_channel net user selectedChannel :
  let eff := CreateForm.usersEffect net user selectedChannel in
  (user = None \/ selectedChannel = None \/ selectedChannel = Some "" ->
   eff = CreateForm.noEffect) /\
  (forall request, In request (CreateForm.requests eff) ->
     exists u id channel,
       user = Some u /\ CreateForm.firstProviderUserId u = Return id /\
       selectedChannel = Some channel /\ channel <> "" /\
       request = CreateForm.Get ("/api/p/slack/users-by-channel?slackId=" +:+ id +:+
                                 "&channelId=" +:+ channel)) /\
  (forall data,
     In (CreateForm.SetUsers data) (CreateForm.updates eff) ->
     exists id channel,
       (CreateForm.getUsers net (Some id) (Some channel)).1 = Return data) /\
  (forall data, ~ In (CreateForm.SetChannels data) (CreateForm.updates eff)).
Proof.
  intros eff. subst eff. unfold CreateForm.usersEffect.
  destruct user as [u|]; simpl.
  2:{ split; [reflexivity|]. repeat split; simpl; intros; try intro; contradiction. }
  destruct selectedChannel as [channel|]; simpl.
  2:{ split; [reflexivity|]. repeat split; simpl; intros; try intro; contradiction. }
  destruct (String.eqb_spec channel "") as [->|Hne]; simpl.
  { split; [reflexivity|]. repeat split; simpl; intros; try intro; contradiction. }
  split; [intros [H|[H|[= H]]]; congruence|].
  destruct (CreateForm.firstProviderUserId u) as [id|e] eqn:Hid; simpl.
  2:{ repeat split; simpl; intros; try intro; contradiction. }
  destruct (CreateForm.getUsers net (Some id) (Some channel)) as [[data'|e] reqs] eqn:Hget;
    simpl in *.
  - assert (Hreqs : reqs =
      [CreateForm.Get ("/api/p/slack/users-by-channel?slackId=" +:+ id +:+
                       "&channelId=" +:+ channel)]).
    { revert Hget. unfold CreateForm.getUsers. simpl.
      destruct (net _) as [[[] [[?|]|?]]|?]; intros [= _ <-]; reflexivity. }
    subst reqs. split; [|split].
    + intros request [<-|[]]. by exists u, id, channel.
    + intros data [[= <-]|[]]. exists id, channel. by rewrite Hget.
    + intros data [H|[]]. discriminate.
  - assert (Hreqs : reqs =
      [CreateForm.Get ("/api/p/slack/users-by-channel?slackId=" +:+ id +:+
                       "&channelId=" +:+ channel)]).
    { revert Hget. unfold CreateForm.getUsers. simpl.
      destruct (net _) as [[[] [[?|]|?]]|?]; intros [= _ <-]; reflexivity. }
    subst reqs. split; [|split].
    + intros request [<-|[]]. by exists u, id, channel.
    + intros data [].
    + intros data [].
Qed.

Lemma usersEffect_waits_for_channel_witness :
  CreateForm.usersEffect CreateForm.offline (Some CreateForm.admin) (Some "")
    = CreateForm.noEffect.
Proof.
  exact (proj1 (usersEffect_waits_for_channel CreateForm.offline
                  (Some CreateForm.admin) (Some ""))
               (or_intror (or_intror eq_refl))).
Defined.

(** ** Submitting the form *)

Lemma setField_lookup k v (o : gmap string CreateForm.JsValue) j :
  CreateForm.setField k v o !! j =
    if decide (k = j) then match v with Some x => Some x | None => o !! j end
    else o !! j.
Proof.
  unfold CreateForm.setField. destruct v as [x|].
  - rewrite lookup_insert. by case_decide.
  - by case_decide.
Qed.

Lemma newStandup_lookup data id k :
  CreateForm.newStandup data id !! k =
    if decide (k = "authorId") then Some (CreateForm.JsString id)
    else if decide (k ∈ CreateForm.schemaKeys) then data !! k
    else None.
Proof.
  unfold CreateForm.newStandup, CreateForm.schemaKeys.
  rewrite !setField_lookup, lookup_empty.
  destruct (decide (k = "authorId")) as [->|Hauthor].
  { simpl. by repeat (case_decide; try done; []). }
  destruct (decide (k ∈ _)) as [Hin|Hout].
  - set_unfold. destruct Hin as [[[[->| ->]| ->]| ->]| ->]; simpl;
      repeat match goal with
             | |- context [data !! ?x] => destruct (data !! x); try done
             end.
  - repeat case_decide; subst; try done; exfalso; apply Hout; set_unfold; tauto.
Qed.

(** X18: with a signed-in user who has an external account, [onSubmit]
    returns whatever the network does, after exactly one POST to the create
    endpoint.  The body holds the five form fields as the data has them and
    the first account's id as [authorId], and nothing else: an [authorId] or
    any other key of the data is not forwarded.  A rejected request is only
    logged; a response that is not [ok] goes unnoticed. *)
Theorem onSubmit_posts_form_fields net u id data :
  CreateForm.firstProviderUserId u = Return id ->
  let request := CreateForm.Post "/api/p/standups/create"
                   (CreateForm.newStandup data id) in
  CreateForm.onSubmit net (Some u) data =
    (Return tt, [request],
     CreateForm.LogData data ::
     match net request with
     | Return _ => []
     | Throw err => [CreateForm.LogError err]
     end) /\
  forall k,
    CreateForm.newStandup data id !! k =
      if decide (k = "authorId") then Some (CreateForm.JsString id)
      else if decide (k ∈ CreateForm.schemaKeys) then data !! k
      else None.
Proof.
  intros Hid request. subst request. split; [|apply newStandup_lookup].
  unfold CreateForm.onSubmit. rewrite Hid.
  by destruct (net _).
Qed.

Lemma onSubmit_posts_form_fields_witness :
  CreateForm.firstProviderUserId CreateForm.admin = Return "U0" /\
  CreateForm.onSubmit CreateForm.offline (Some CreateForm.admin)
    (<["authorId" := CreateForm.JsString "U666"]> CreateForm.filledForm) =
    (Return tt,
     [CreateForm.Post "/api/p/standups/create"
        (<["authorId" := CreateForm.JsString "U0"]> CreateForm.filledForm)],
     [CreateForm.LogData
        (<["authorId" := CreateForm.JsString "U666"]> CreateForm.filledForm);
      CreateForm.LogError (Rejected "Failed to fetch")]).
Proof.
  split; [reflexivity|].
  rewrite (proj1 (onSubmit_posts_form_fields CreateForm.offline CreateForm.admin "U0"
                    (<["authorId" := CreateForm.JsString "U666"]> CreateForm.filledForm)
                    eq_refl)).
  vm_compute. reflexivity.
Defined.

(** X19: without a signed-in user, or when the user has no external
    account, [onSubmit] is rejected with a [TypeError] once the data has
    been logged; no request is made. *)
Theorem onSubmit_needs_account net user data :
  (user = None \/ exists u, user = Some u /\ CreateForm.externalAccounts u = []) ->
  CreateForm.onSubmit net user data =
    (Throw TypeError, [], [CreateForm.LogData data]).
Proof.
  intros [->|(u & -> & Hacc)]; [reflexivity|].
  unfold CreateForm.onSubmit, CreateForm.firstProviderUserId. by rewrite Hacc.
Qed.

Lemma onSubmit_needs_account_witness :
  CreateForm.onSubmit CreateForm.offline
    (Some {| CreateForm.externalAccounts := [] |}) CreateForm.filledForm =
    (Throw TypeError, [], [CreateForm.LogData CreateForm.filledForm]).
Proof.
  apply onSubmit_needs_account. right. eexists. split; reflexivity.
Defined.

(** ** The schema *)

Lemma nonemptyString_inv v :
  CreateForm.nonemptyString v = true ->
  exists s, v = Some (CreateForm.JsString s) /\ s <> "".
Proof.
  destruct v as [[| |s|]|]; simpl; try discriminate.
  destruct (String.eqb_spec s ""); [discriminate|]. intros _. by exists s.
Qed.

Lemma nonemptyStringArray_inv v :
  CreateForm.nonemptyStringArray v = true ->
  exists item items,
    v = Some (CreateForm.JsArray (item :: items)) /\
    Forall (fun x => exists s, x = CreateForm.JsString s) (item :: items).
Proof.
  destruct v as [[| | |[|item items]]|]; try discriminate.
  unfold CreateForm.nonemptyStringArray. intros H.
  exists item, items. split; [reflexivity|].
  pose proof (proj1 (List.forallb_forall _ _) H) as Hall.
  apply Forall_forall. intros x Hx.
  apply list_elem_of_In, Hall in Hx. destruct x; try discriminate. by eexists.
Qed.

Lemma schema_fields data :
  CreateForm.schema data = true ->
  dom data ⊆ CreateForm.schemaKeys /\
  (exists s, data !! "name" = Some (CreateForm.JsString s) /\ s <> "") /\
  (exists s, data !! "channelId" = Some (CreateForm.JsString s) /\ s <> "") /\
  (exists s, data !! "scheduleCron" = Some (CreateForm.JsString s) /\ s <> "") /\
  (exists s, data !! "summaryCron" = Some (CreateForm.JsString s) /\ s <> "") /\
  exists item items,
    data !! "members" = Some (CreateForm.JsArray (item :: items)) /\
    Forall (fun x => exists s, x = CreateForm.JsString s) (item :: items).
Proof.
  unfold CreateForm.schema. rewrite !andb_true_iff.
  intros (((((Hn & Hc) & Hm) & Hs) & Hu) & Hdom).
  apply bool_decide_eq_true in Hdom.
  auto 10 using nonemptyString_inv, nonemptyStringArray_inv.
Qed.

Lemma schema_dom data :
  CreateForm.schema data = true -> dom data = CreateForm.schemaKeys.
Proof.
  intros Hok.
  destruct (schema_fields data Hok)
    as (Hdom & (n & Hn & _) & (c & Hc & _) & (s & Hs & _) & (s' & Hu & _)
        & (item & items & Hm & _)).
  apply set_eq. intros k. split; [apply Hdom|].
  unfold CreateForm.schemaKeys. rewrite !elem_of_union, !elem_of_singleton.
  intros [[[[->| ->]| ->]| ->]| ->]; apply elem_of_dom; eauto.
Qed.

(** X20: data the schema accepts has exactly the five keys of the form;
    [name], [channelId] and the two cron expressions are non-empty strings
    and [members] is an array of at least one string. *)
Theorem schema_accepts_complete_forms data :
  CreateForm.schema data = true ->
  dom data = CreateForm.schemaKeys /\
  (forall k, k ∈ ({[ "name"; "channelId"; "scheduleCron"; "summaryCron" ]} : gset string) ->
     exists s, data !! k = Some (CreateForm.JsString s) /\ s <> "") /\
  exists item items,
    data !! "members" = Some (CreateForm.JsArray (item :: items)) /\
    Forall (fun x => exists s, x = CreateForm.JsString s) (item :: items).
Proof.
  intros Hok. split; [by apply schema_dom|].
  destruct (schema_fields data Hok) as (_ & Hn & Hc & Hs & Hu & Hm).
  split; [|exact Hm].
  intros k. rewrite !elem_of_union, !elem_of_singleton.
  intros [[[->| ->]| ->]| ->]; assumption.
Qed.

Lemma schema_accepts_complete_forms_witness :
  CreateForm.schema CreateForm.filledForm = true /\
  dom CreateForm.filledForm = CreateForm.schemaKeys.
Proof.
  split; [reflexivity|].
  exact (proj1 (schema_accepts_complete_forms CreateForm.filledForm eq_refl)).
Defined.

(** X21: the schema is strict both ways: data with any key beyond the five
    is refused, and so is data that lacks one of the five. *)
Theorem schema_refuses_other_shapes data k :
  (k ∉ CreateForm.schemaKeys -> is_Some (data !! k) -> CreateForm.schema data = false) /\
  (k ∈ CreateForm.schemaKeys -> data !! k = None -> CreateForm.schema data = false).
Proof.
  split.
  - intros Hk Hsome. apply not_true_is_false. intros Hok.
    apply Hk. rewrite <- (schema_dom data Hok). by apply elem_of_dom.
  - intros Hk Hnone. apply not_true_is_false. intros Hok.
    rewrite <- (schema_dom data Hok) in Hk. apply elem_of_dom in Hk as [v Hv].
    congruence.
Qed.

Lemma schema_refuses_other_shapes_witness :
  ("authorId" ∉ CreateForm.schemaKeys) /\
  CreateForm.schema
    (<["authorId" := CreateForm.JsString "U666"]> CreateForm.filledForm) = false /\
  CreateForm.schema (delete "members" CreateForm.filledForm) = false.
Proof.
  assert (Hk : "authorId" ∉ CreateForm.schemaKeys) by compute_done.
  split; [exact Hk|]. split.
  - apply (proj1 (schema_refuses_other_shapes _ "authorId") Hk).
    rewrite lookup_insert_eq. by eexists.
  - apply (proj2 (schema_refuses_other_shapes _ "members")); [compute_done|].
    apply lookup_delete_eq.
Defined.

(** X22: a form the schema accepts is sent as it is: the body of the
    request [onSubmit] makes is the validated data with [authorId] added. *)
Theorem onSubmit_sends_validated_form net u id data :
  CreateForm.schema data = true ->
  CreateForm.firstProviderUserId u = Return id ->
  ((CreateForm.onSubmit net (Some u) data).1).2 =
    [CreateForm.Post "/api/p/standups/create"
       (<["authorId" := CreateForm.JsString id]> data)].
Proof.
  intros Hok Hid. unfold CreateForm.onSubmit. rewrite Hid.
  assert (Hbody : CreateForm.newStandup data id
                  = <["authorId" := CreateForm.JsString id]> data).
  { apply map_eq. intros k. rewrite newStandup_lookup, lookup_insert.
    destruct (decide (k = "authorId")) as [->|Hk].
    - by rewrite decide_True.
    - rewrite (decide_False (P := "authorId" = k)) by congruence.
      case_decide as Hin; [reflexivity|].
      rewrite <- (schema_dom data Hok) in Hin.
      symmetry. by apply not_elem_of_dom. }
  rewrite Hbody. by destruct (net _).
Qed.

Lemma onSubmit_sends_validated_form_witness :
  CreateForm.schema CreateForm.filledForm = true /\
  CreateForm.firstProviderUserId CreateForm.admin = Return "U0" /\
  ((CreateForm.onSubmit CreateForm.failing (Some CreateForm.admin)
      CreateForm.filledForm).1).2 =
    [CreateForm.Post "/api/p/standups/create"
       (<["authorId" := CreateForm.JsString "U0"]> CreateForm.filledForm)].
Proof.
  split; [reflexivity|]. split; [reflexivity|].
  exact (onSubmit_sends_validated_form CreateForm.failing CreateForm.admin "U0"
           CreateForm.filledForm eq_refl eq_refl).
Defined.
